(** * http_alma_analytics: the HTTP trigger of [function_app.py]

    A shallow embedding of the request pipeline

      set_payload -> make_api_call -> get_soup -> get_columns -> get_rows

    and the properties of it that the specification states.  Python values
    that come out of [json.loads] are an inductive type with Python's
    truthiness; dictionaries are [gmap]s; the parsed XML document is a tree of
    tags and strings with the three BeautifulSoup queries the handler uses
    ([find], [find_all], [findChildren]); the configuration store, the remote
    HTTP endpoint and the XML parser are parameters.  Everything the handler
    does to the outside (log records, store lookups, the outbound GET) is
    written to a trace, so that "no lookup happened" and "no call was issued"
    are statements about that trace. *)

From Stdlib Require Import ZArith String Ascii List Bool Floats.SpecFloat.
From stdpp Require Import gmap strings list fin_maps.

#[local] Set Warnings "-register-all".
#[local] Open Scope list_scope.
#[local] Open Scope Z_scope.

(** ** Strings *)

Module Str.

(** [f] applied to every character, results concatenated:
    [''.join(f(c) for c in s)]. *)
Fixpoint bind (f : ascii -> string) (s : string) : string :=
  match s with
  | EmptyString => EmptyString
  | String c rest => f c +:+ bind f rest
  end.

(** [c in s] for a single character. *)
Fixpoint mem (c : ascii) (s : string) : bool :=
  match s with
  | EmptyString => false
  | String d rest => Ascii.eqb c d || mem c rest
  end.

(** [needle in hay]: Python's substring test on [str]. *)
Fixpoint contains (needle hay : string) : bool :=
  String.prefix needle hay ||
  match hay with
  | EmptyString => false
  | String _ rest => contains needle rest
  end.

(** [s.replace(a, b)] for single characters [a], [b]. *)
Fixpoint replace (a b : ascii) (s : string) : string :=
  match s with
  | EmptyString => EmptyString
  | String c rest => String (if Ascii.eqb c a then b else c) (replace a b rest)
  end.

(** [''.join(l)]. *)
Fixpoint join (sep : string) (l : list string) : string :=
  match l with
  | [] => EmptyString
  | [x] => x
  | x :: rest => x +:+ sep +:+ join sep rest
  end.

(** [s.split(sep)] for a single-character separator. *)
Fixpoint split (sep : ascii) (s : string) : list string :=
  match s with
  | EmptyString => [EmptyString]
  | String c rest =>
      if Ascii.eqb c sep then EmptyString :: split sep rest
      else match split sep rest with
           | [] => [String c EmptyString]
           | w :: ws => String c w :: ws
           end
  end.

(** [s.partition(sep)], first and last component. *)
Fixpoint partition (sep : ascii) (s : string) : string * string :=
  match s with
  | EmptyString => (EmptyString, EmptyString)
  | String c rest =>
      if Ascii.eqb c sep then (EmptyString, rest)
      else let '(k, v) := partition sep rest in (String c k, v)
  end.

(** The specification's reading of "contains the substring". *)
Definition Substring (needle hay : string) : Prop :=
  ∃ pre post, hay = pre +:+ needle +:+ post.

End Str.

(** ** Python values

    What [req.get_json()] (that is, [json.loads]) can return. *)

Inductive pyval : Type :=
| PyNone
| PyBool (b : bool)
| PyInt (z : Z)
| PyFloat (f : spec_float)
| PyStr (s : string)
| PyList (l : list pyval)
| PyDict (d : gmap string pyval).

(** [bool(v)]: what [if v:] and [not v] test. *)
Definition truthy (v : pyval) : bool :=
  match v with
  | PyNone => false
  | PyBool b => b
  | PyInt z => negb (z =? 0)
  | PyFloat f => match f with S754_zero _ => false | _ => true end
  | PyStr s => negb (String.eqb s "")
  | PyList l => match l with [] => false | _ => true end
  | PyDict d => negb (bool_decide (d = ∅))
  end.

Inductive exn : Type :=
| AttributeError (attr : string)
| KeyError (key : string)
| TypeError.

(** ** Records of the configuration store

    The fields are the attributes [function_app.py] reads. *)

Record Area := { area_id : Z }.
Record Iz := { iz_id : Z; iz_code : string }.
Record Analysis := { analysis_name : string }.
Record IzAnalysis := { iz_analysis_path : string }.
Record ApiKey := { apikey_apikey : string }.

(** The five lookups of [barcodecheck_models], each returning a record or
    [None].  The code lives outside this repository; the handler is verified
    against any implementation of the interface. *)
Class ConfigStore := {
  get_area_by_name : string → option Area;
  get_iz_by_code : pyval → option Iz;
  get_analysis_by_name : pyval → option Analysis;
  get_iz_analysis_by_iz_and_analysis : Iz → Analysis → option IzAnalysis;
  get_api_key_by_area_and_iz : Z → Z → bool → option ApiKey
}.

(** ** HTTP request and response *)

(** [func.HttpRequest]: the handler only calls [get_json()], which returns the
    decoded body or raises [ValueError] ([None] here). *)
Record HttpRequest := { get_json : option pyval }.

(** A row of the report: header to cell text. *)
Abbreviation row := (gmap string string).

(** The body handed to [func.HttpResponse]: a plain message, or
    [json.dumps] of the success envelope. *)
Inductive body : Type :=
| Text (s : string)
| JsonDumps (resume : option string) (rows : list row).

Record HttpResponse := {
  resp_body : body;
  status_code : Z;
  mimetype : option string
}.

Definition plain (msg : string) (status : Z) : HttpResponse :=
  {| resp_body := Text msg; status_code := status; mimetype := None |}.

(** ** Effects *)

Inductive event : Type :=
| Log (fmt : string) (args : list pyval)          (* logging.error(fmt, *args) *)
| AreaByName (name : string) (r : option Area)
| IzByCode (code : pyval) (r : option Iz)
| AnalysisByName (name : pyval) (r : option Analysis)
| IzAnalysisByPair (iz : Iz) (a : Analysis) (r : option IzAnalysis)
| ApiKeyByAreaIz (area iz : Z) (write : bool) (r : option ApiKey)
| HttpGet (url params : string) (timeout : Z).    (* requests.get *)

Inductive outcome (A : Type) : Type :=
| Value (a : A)
| Raised (e : exn).
Arguments Value {A} a.
Arguments Raised {A} e.

(** A computation: the events it performed, in order, and how it ended. *)
Definition M (A : Type) : Type := list event * outcome A.

Definition raise {A} (e : exn) : M A := ([], Raised e).
Definition emit (e : event) : M unit := ([e], Value tt).

#[export] Instance M_ret : MRet M := λ A a, ([], Value a).

#[export] Instance M_bind : MBind M := λ A B k m,
  match m with
  | (t, Value a) => let '(t', r) := k a in (t ++ t', r)
  | (t, Raised e) => (t, Raised e)
  end.

Definition trace {A} (m : M A) : list event := fst m.
Definition result {A} (m : M A) : outcome A := snd m.

Definition is_lookup (e : event) : bool :=
  match e with
  | Log _ _ | HttpGet _ _ _ => false
  | _ => true
  end.

Definition is_http_get (e : event) : bool :=
  match e with HttpGet _ _ _ => true | _ => false end.

(** The lookups that came back with no record. *)
Definition is_absent_lookup (e : event) : bool :=
  match e with
  | AreaByName _ None | IzByCode _ None | AnalysisByName _ None
  | IzAnalysisByPair _ _ None | ApiKeyByAreaIz _ _ _ None => true
  | _ => false
  end.

(** ** Operations on Python values *)

(** [v.get(key)]: only [dict] has the method. *)
Definition py_get (v : pyval) (key : string) : M pyval :=
  match v with
  | PyDict d => mret (default PyNone (d !! key))
  | _ => raise (AttributeError "get")
  end.

(** [key in v] for a [str] key. *)
Definition py_in (key : string) (v : pyval) : M bool :=
  match v with
  | PyDict d => mret (bool_decide (is_Some (d !! key)))
  | PyStr s => mret (Str.contains key s)
  | PyList l =>
      mret (existsb (λ x, match x with PyStr s => String.eqb s key | _ => false end) l)
  | _ => raise TypeError
  end.

(** [for x in l: acc = step(acc, x)], stopping at the first exception. *)
Fixpoint for_each {A B} (step : B → A → M B) (l : list A) (acc : B) : M B :=
  match l with
  | [] => mret acc
  | x :: rest => acc' ← step acc x; for_each step rest acc'
  end.

(** ** [urllib.parse] *)

Module urllib.

(** [_ALWAYS_SAFE]: ASCII letters, digits and [_.-~]. *)
Definition always_safe (c : ascii) : bool :=
  let n := nat_of_ascii c in
  ((65 <=? n) && (n <=? 90) || (97 <=? n) && (n <=? 122)
   || (48 <=? n) && (n <=? 57))%nat
  || Str.mem c "_.-~".

Definition hex_digit (n : nat) : ascii :=
  match String.get n "0123456789ABCDEF" with
  | Some c => c
  | None => "0"%char
  end.

(** ['%{:02X}'.format(b)]. *)
Definition percent (c : ascii) : string :=
  let n := nat_of_ascii c in
  String "%" (String (hex_digit (n / 16)) (String (hex_digit (n mod 16)) ""))%nat.

(** [_Quoter.__missing__]: a byte is kept when it is safe, escaped
    otherwise. *)
Definition quoter (safe : string) (c : ascii) : string :=
  if always_safe c || Str.mem c safe then String c "" else percent c.

(** [quote(string, safe)]; a [str] is its UTF-8 bytes here. *)
Definition quote (s safe : string) : string := Str.bind (quoter safe) s.

(** [quote_plus(string, safe)]. *)
Definition quote_plus (s safe : string) : string :=
  if negb (Str.mem " " s) then quote s safe
  else Str.replace " " "+" (quote s (safe +:+ " ")).

(** [urlencode(query, safe=safe)] for a dict of [str] to [str], in
    insertion order. *)
Definition urlencode (query : list (string * string)) (safe : string) : string :=
  Str.join "&"
    (map (λ kv, quote_plus kv.1 safe +:+ "=" +:+ quote_plus kv.2 safe) query).

(** What [quote_plus] does to one character. *)
Definition plus_char (safe : string) (c : ascii) : string :=
  if Ascii.eqb c " " then "+" else quoter safe c.

(** The keys and values of a query string, as the receiving side reads
    them: split at [&], each piece at its first [=]. *)
Definition pairs (qs : string) : list (string * string) :=
  map (Str.partition "=") (Str.split "&" qs).

End urllib.

(** ** The parsed document (BeautifulSoup, [xml] parser) *)

Inductive node : Type :=
| Tag (name : string) (attrs : gmap string string) (contents : list node)
| NavigableString (s : string)   (* character data and CDATA *)
| Comment (s : string).          (* comments, declarations, processing instructions *)

(** The [BeautifulSoup] object is the root; what the handler uses of it is
    its contents. *)
Abbreviation soup := (list node).

Module bs4.

(** [tag.name]; the queries below only ever return tags. *)
Definition name (n : node) : string :=
  match n with Tag nm _ _ => nm | _ => "" end.

Definition contents (n : node) : list node :=
  match n with Tag _ _ cs => cs | _ => [] end.

Definition attrs (n : node) : gmap string string :=
  match n with Tag _ a _ => a | _ => ∅ end.

(** [node.text]: the character data below the node, concatenated in
    document order; comments are left out. *)
Fixpoint text (n : node) : string :=
  match n with
  | Tag _ _ cs => String.concat "" (map text cs)
  | NavigableString s => s
  | Comment _ => ""
  end.

(** The tag itself followed by the tags below it, in document order. *)
Fixpoint tags (n : node) : list node :=
  match n with
  | Tag _ _ cs => n :: flat_map tags cs
  | _ => []
  end.

Definition is_tag (n : node) : bool :=
  match n with Tag _ _ _ => true | _ => false end.

(** [tag.descendants], restricted to tags. *)
Definition descendants (cs : list node) : list node := flat_map tags cs.

Definition has_name (nm : string) (n : node) : bool := String.eqb (name n) nm.

(** [find_all(name)]: every tag below with that name, document order. *)
Definition find_all (nm : string) (cs : list node) : list node :=
  List.filter (has_name nm) (descendants cs).

(** [find(name)]: the first of them, or [None]. *)
Definition find (nm : string) (cs : list node) : option node :=
  head (find_all nm cs).

(** [tag.findChildren()] is [find_all()] with no name: every tag below,
    at any depth. *)
Definition findChildren (n : node) : list node := descendants (contents n).

(** [bool(tag)].  [Tag.__bool__] returns [True] whatever the contents
    ("a tag is non-None even if it has no contents"), and [BeautifulSoup]
    inherits it. *)
Definition truthy (cs : list node) : bool := true.

(** [tag[key]]: the attribute, [KeyError] when the tag has none. *)
Definition getitem (n : node) (key : string) : M string :=
  match n with
  | Tag _ attrs _ =>
      match attrs !! key with
      | Some v => mret v
      | None => raise (KeyError key)
      end
  | _ => raise TypeError
  end.

End bs4.

(** ** The handler *)

(** Line 83: both required fields of the body are there and truthy. *)
Definition required_fields (d : gmap string pyval) : bool :=
  truthy (default PyNone (d !! "iz")) && truthy (default PyNone (d !! "analysis")).

Section Handler.

Context {store : ConfigStore}.

(** [format(v)] of a value that is not a [str] (Python's [repr] of
    numbers, lists and so on). *)
Variable py_repr : pyval → string.

(** [requests.get(url, params, timeout)] followed by
    [raise_for_status()]: the text of the [RequestException], or the
    response's [content]. *)
Variable requests_get : string → string → Z → string + string.

(** [BeautifulSoup(content, features)]. *)
Variable BeautifulSoup : string → string → soup.

(** [f"{v}"]. *)
Definition py_format (v : pyval) : string :=
  match v with
  | PyStr s => s
  | _ => py_repr v
  end.

Definition area_by_name (nm : string) : M (option Area) :=
  let r := get_area_by_name nm in emit (AreaByName nm r);; mret r.

Definition iz_by_code (code : pyval) : M (option Iz) :=
  let r := get_iz_by_code code in emit (IzByCode code r);; mret r.

Definition analysis_by_name (nm : pyval) : M (option Analysis) :=
  let r := get_analysis_by_name nm in emit (AnalysisByName nm r);; mret r.

Definition iz_analysis_by_iz_and_analysis (iz : Iz) (a : Analysis)
  : M (option IzAnalysis) :=
  let r := get_iz_analysis_by_iz_and_analysis iz a in
  emit (IzAnalysisByPair iz a r);; mret r.

Definition api_key_by_area_and_iz (area iz : Z) (write : bool)
  : M (option ApiKey) :=
  let r := get_api_key_by_area_and_iz area iz write in
  emit (ApiKeyByAreaIz area iz write r);; mret r.

(** The query string of lines 125-135, from the resolved records and the
    value of [resume]. *)
Definition build_payload (path apikey : string) (resume : pyval) : string :=
  let payload :=
    urllib.urlencode
      [("path", path); ("apikey", apikey); ("limit", "1000"); ("col_names", "true")]
      ":%" in
  if truthy resume then payload +:+ "&token=" +:+ py_format resume else payload.

Definition set_payload (req : HttpRequest) : M (HttpResponse + string) :=
  match get_json req with
  | None =>
      emit (Log "Invalid JSON in request body" []);;
      mret (inl (plain "Invalid JSON in request body" 400))
  | Some req_body =>
      iz_field ← py_get req_body "iz";
      missing ← (if negb (truthy iz_field) then mret true
                 else analysis_field ← py_get req_body "analysis";
                      mret (negb (truthy analysis_field)));
      if (missing : bool) then
        emit (Log "Missing required parameters in POST request body" []);;
        mret (inl (plain "Pass iz, and analysis in the request body" 400))
      else
      area ← area_by_name "analytics";
      match area with
      | None =>
          a ← py_get req_body "area";
          emit (Log "Area %s not found" [a]);;
          mret (inl (plain "Area not found" 404))
      | Some area =>
      code ← py_get req_body "iz";
      iz ← iz_by_code code;
      match iz with
      | None =>
          a ← py_get req_body "iz";
          emit (Log "IZ %s not found" [a]);;
          mret (inl (plain "IZ not found" 404))
      | Some iz =>
      nm ← py_get req_body "analysis";
      analysis ← analysis_by_name nm;
      match analysis with
      | None =>
          a ← py_get req_body "analysis";
          emit (Log "Analytics Analysis %s not found" [a]);;
          mret (inl (plain "Analysis not found" 404))
      | Some analysis =>
      iz_analysis ← iz_analysis_by_iz_and_analysis iz analysis;
      match iz_analysis with
      | None =>
          emit (Log "Analytics Analysis %s for IZ %s not found"
                  [PyStr (analysis_name analysis); PyStr (iz_code iz)]);;
          mret (inl (plain "Report path not found" 404))
      | Some iz_analysis =>
      apikey ← api_key_by_area_and_iz (area_id area) (iz_id iz) false;
      match apikey with
      | None =>
          emit (Log "Read-only Analytics API Key not found for %s"
                  [PyStr (iz_code iz)]);;
          mret (inl (plain "API key not found" 404))
      | Some apikey =>
      has_resume ← py_in "resume" req_body;
      resume ← (if (has_resume : bool) then py_get req_body "resume"
                else mret PyNone);
      mret (inr (build_payload (iz_analysis_path iz_analysis)
                   (apikey_apikey apikey) resume))
      end end end end end
  end.

Definition url : string :=
  "https://api-na.hosted.exlibrisgroup.com/almaws/v1/analytics/reports".

Definition make_api_call (payload : string) : M (HttpResponse + string) :=
  emit (HttpGet url payload 600);;
  match requests_get url payload 600 with
  | inl e => mret (inl (plain ("API call failed: " +:+ e) 500))
  | inr content => mret (inr content)
  end.

Definition get_soup (content : string) : M (HttpResponse + soup) :=
  let soup := BeautifulSoup content "xml" in
  if negb (bs4.truthy soup) then
    emit (Log "Empty or invalid XML response" []);;
    mret (inl (plain "Empty or invalid XML response" 404))
  else
  match bs4.find "error" soup with
  | Some e =>
      emit (Log "Error: %s" [PyStr (bs4.text e)]);;
      mret (inl (plain ("Error: " +:+ bs4.text e) 500))
  | None => mret (inr soup)
  end.

(** The body of the loop of [get_columns]; the right-hand side of an
    assignment is evaluated before the subscript of its target. *)
Definition get_columns_step (columns : gmap string string) (column : node)
  : M (gmap string string) :=
  heading ← bs4.getitem column "saw-sql:columnHeading";
  nm ← bs4.getitem column "name";
  let columns := <[nm := heading]> columns in
  heading ← bs4.getitem column "saw-sql:columnHeading";
  if Str.contains "CASE  WHEN Provenance Code" heading then
    nm ← bs4.getitem column "name";
    mret (<[nm := "Provenance Code"]> columns)
  else mret columns.

Definition get_columns (soup : soup) : M (HttpResponse + gmap string string) :=
  let columnlist := bs4.find_all "xsd:element" soup in
  match columnlist with
  | [] =>
      emit (Log "No columns found" []);;
      mret (inl (plain "No columns found" 404))
  | _ =>
      columns ← for_each get_columns_step columnlist ∅;
      mret (inr columns)
  end.

(** The body of the inner loop of [get_rows]. *)
Definition get_rows_step (columns : gmap string string) (values : row)
  (kid : node) : row :=
  if negb (String.eqb (bs4.name kid) "Column0") then
    match columns !! bs4.name kid with
    | Some heading => <[heading := bs4.text kid]> values
    | None => <[bs4.name kid := bs4.text kid]> values
    end
  else values.

(** One pass of the outer loop: the mapping of one [Row]. *)
Definition get_row (columns : gmap string string) (value : node) : row :=
  let kids := bs4.findChildren value in
  fold_left (get_rows_step columns) kids ∅.

Definition get_rows (soup : soup) (columns : gmap string string)
  : M (HttpResponse + list row) :=
  let rowlist := bs4.find_all "Row" soup in
  match rowlist with
  | [] =>
      emit (Log "No rows found" []);;
      mret (inl (plain "No rows found" 404))
  | _ =>
      let rows :=
        fold_left (λ rows value, rows ++ [get_row columns value]) rowlist [] in
      mret (inr rows)
  end.

Definition httpalmaanalytics (req : HttpRequest) : M HttpResponse :=
  payload ← set_payload req;
  match payload with inl resp => mret resp | inr payload =>
  response ← make_api_call payload;
  match response with inl resp => mret resp | inr content =>
  soup ← get_soup content;
  match soup with inl resp => mret resp | inr soup =>
  columns ← get_columns soup;
  match columns with inl resp => mret resp | inr columns =>
  rows ← get_rows soup columns;
  match rows with inl resp => mret resp | inr rows =>
  let resume_data := bs4.find "ResumptionToken" soup in
  mret {| resp_body := JsonDumps (bs4.text <$> resume_data) rows;
          status_code := 200;
          mimetype := Some "application/json" |}
  end end end end end.

(** The handler from the remote call on (lines 36-66), for a payload that
    [set_payload] produced. *)
Definition respond (payload : string) : M HttpResponse :=
  response ← make_api_call payload;
  match response with inl resp => mret resp | inr content =>
  soup ← get_soup content;
  match soup with inl resp => mret resp | inr soup =>
  columns ← get_columns soup;
  match columns with inl resp => mret resp | inr columns =>
  rows ← get_rows soup columns;
  match rows with inl resp => mret resp | inr rows =>
  let resume_data := bs4.find "ResumptionToken" soup in
  mret {| resp_body := JsonDumps (bs4.text <$> resume_data) rows;
          status_code := 200;
          mimetype := Some "application/json" |}
  end end end end.

(** The seven ways [set_payload] ends on a JSON object [d]: what it logged
    and looked up, in order, and what it returned. *)
Inductive resolution (d : gmap string pyval) : M (HttpResponse + string) → Prop :=
| res_missing :
    required_fields d = false →
    resolution d
      ([Log "Missing required parameters in POST request body" []],
       Value (inl (plain "Pass iz, and analysis in the request body" 400)))
| res_no_area :
    required_fields d = true →
    get_area_by_name "analytics" = None →
    resolution d
      ([AreaByName "analytics" None;
        Log "Area %s not found" [default PyNone (d !! "area")]],
       Value (inl (plain "Area not found" 404)))
| res_no_iz area :
    required_fields d = true →
    get_area_by_name "analytics" = Some area →
    get_iz_by_code (default PyNone (d !! "iz")) = None →
    resolution d
      ([AreaByName "analytics" (Some area);
        IzByCode (default PyNone (d !! "iz")) None;
        Log "IZ %s not found" [default PyNone (d !! "iz")]],
       Value (inl (plain "IZ not found" 404)))
| res_no_analysis area iz :
    required_fields d = true →
    get_area_by_name "analytics" = Some area →
    get_iz_by_code (default PyNone (d !! "iz")) = Some iz →
    get_analysis_by_name (default PyNone (d !! "analysis")) = None →
    resolution d
      ([AreaByName "analytics" (Some area);
        IzByCode (default PyNone (d !! "iz")) (Some iz);
        AnalysisByName (default PyNone (d !! "analysis")) None;
        Log "Analytics Analysis %s not found" [default PyNone (d !! "analysis")]],
       Value (inl (plain "Analysis not found" 404)))
| res_no_path area iz analysis :
    required_fields d = true →
    get_area_by_name "analytics" = Some area →
    get_iz_by_code (default PyNone (d !! "iz")) = Some iz →
    get_analysis_by_name (default PyNone (d !! "analysis")) = Some analysis →
    get_iz_analysis_by_iz_and_analysis iz analysis = None →
    resolution d
      ([AreaByName "analytics" (Some area);
        IzByCode (default PyNone (d !! "iz")) (Some iz);
        AnalysisByName (default PyNone (d !! "analysis")) (Some analysis);
        IzAnalysisByPair iz analysis None;
        Log "Analytics Analysis %s for IZ %s not found"
          [PyStr (analysis_name analysis); PyStr (iz_code iz)]],
       Value (inl (plain "Report path not found" 404)))
| res_no_key area iz analysis iz_analysis :
    required_fields d = true →
    get_area_by_name "analytics" = Some area →
    get_iz_by_code (default PyNone (d !! "iz")) = Some iz →
    get_analysis_by_name (default PyNone (d !! "analysis")) = Some analysis →
    get_iz_analysis_by_iz_and_analysis iz analysis = Some iz_analysis →
    get_api_key_by_area_and_iz (area_id area) (iz_id iz) false = None →
    resolution d
      ([AreaByName "analytics" (Some area);
        IzByCode (default PyNone (d !! "iz")) (Some iz);
        AnalysisByName (default PyNone (d !! "analysis")) (Some analysis);
        IzAnalysisByPair iz analysis (Some iz_analysis);
        ApiKeyByAreaIz (area_id area) (iz_id iz) false None;
        Log "Read-only Analytics API Key not found for %s" [PyStr (iz_code iz)]],
       Value (inl (plain "API key not found" 404)))
| res_payload area iz analysis iz_analysis apikey :
    required_fields d = true →
    get_area_by_name "analytics" = Some area →
    get_iz_by_code (default PyNone (d !! "iz")) = Some iz →
    get_analysis_by_name (default PyNone (d !! "analysis")) = Some analysis →
    get_iz_analysis_by_iz_and_analysis iz analysis = Some iz_analysis →
    get_api_key_by_area_and_iz (area_id area) (iz_id iz) false = Some apikey →
    resolution d
      ([AreaByName "analytics" (Some area);
        IzByCode (default PyNone (d !! "iz")) (Some iz);
        AnalysisByName (default PyNone (d !! "analysis")) (Some analysis);
        IzAnalysisByPair iz analysis (Some iz_analysis);
        ApiKeyByAreaIz (area_id area) (iz_id iz) false (Some apikey)],
       Value (inr (build_payload (iz_analysis_path iz_analysis)
                     (apikey_apikey apikey) (default PyNone (d !! "resume"))))).

End Handler.

(** ** Vocabulary of the specification *)

(** The query string without a continuation token: the four fixed keys, the
    two values escaped by [quote_plus] with [:] and [%] kept. *)
Definition base_query (path apikey : string) : string :=
  "path=" +:+ urllib.quote_plus path ":%" +:+
  "&apikey=" +:+ urllib.quote_plus apikey ":%" +:+
  "&limit=1000&col_names=true".

(** The payload carries a [token] key. *)
Definition has_token (payload : string) : bool :=
  existsb (λ kv, String.eqb kv.1 "token") (urllib.pairs payload).

(** The header a row child is filed under: the column map's entry for its
    tag, the tag itself when the map has none. *)
Definition header_of (columns : gmap string string) (tag : string) : string :=
  default tag (columns !! tag).

Definition is_column0 (kid : node) : bool := String.eqb (bs4.name kid) "Column0".

(** The normalization rule of the column map. *)
Definition normalized (heading : string) : string :=
  if Str.contains "CASE  WHEN Provenance Code" heading then "Provenance Code"
  else heading.

(** The two attributes of a column declaration, when it has both. *)
Definition declared (column : node) : option (string * string) :=
  nm ← bs4.attrs column !! "name";
  heading ← bs4.attrs column !! "saw-sql:columnHeading";
  Some (nm, heading).

(** The column map the loop of [get_columns] builds, declaration by
    declaration. *)
Definition add_column (columns : gmap string string) (column : node)
  : gmap string string :=
  match declared column with
  | Some (nm, heading) => <[nm := normalized heading]> columns
  | None => columns
  end.

(** The row mapping in the specification's words: drop every [Column0],
    file each remaining cell under its header, later cells replacing earlier
    ones with the same header. *)
Definition row_of_cells (columns : gmap string string) (kids : list node) : row :=
  list_to_map
    (reverse
       (map (λ kid, (header_of columns (bs4.name kid), bs4.text kid))
          (List.filter (λ kid, negb (is_column0 kid)) kids))).

(** What a run recorded of each lookup. *)
Definition area_result (t : list event) : option (option Area) :=
  head (omap (λ e, match e with AreaByName _ r => Some r | _ => None end) t).

Definition iz_result (t : list event) : option (option Iz) :=
  head (omap (λ e, match e with IzByCode _ r => Some r | _ => None end) t).

Definition analysis_result (t : list event) : option (option Analysis) :=
  head (omap (λ e, match e with AnalysisByName _ r => Some r | _ => None end) t).

(** The arguments of the fourth and of the fifth lookup of a run. *)
Definition iz_analysis_inputs (t : list event) : option (Iz * Analysis) :=
  head (omap (λ e, match e with IzAnalysisByPair i a _ => Some (i, a) | _ => None end) t).

Definition api_key_inputs (t : list event) : option (Z * Z * bool) :=
  head (omap (λ e, match e with ApiKeyByAreaIz a i w _ => Some (a, i, w) | _ => None end) t).

(** ** Sample data *)

Module Sample.

Definition scf (id : Z) : Iz := {| iz_id := id; iz_code := "scf" |}.

(** A store with one area, one organization (whose id is [id]), one
    analysis, one report path and one read-only key for the pair [(1, 7)]
    and one for [(1, 8)]. *)
Definition store (id : Z) : ConfigStore := {|
  get_area_by_name nm :=
    if String.eqb nm "analytics" then Some {| area_id := 1 |} else None;
  get_iz_by_code code :=
    match code with
    | PyStr "scf" => Some (scf id)
    | _ => None
    end;
  get_analysis_by_name nm :=
    match nm with
    | PyStr "loans" => Some {| analysis_name := "loans" |}
    | _ => None
    end;
  get_iz_analysis_by_iz_and_analysis iz a :=
    Some {| iz_analysis_path := "/shared/Foo Bar:x%2F/loans" |};
  get_api_key_by_area_and_iz area iz write :=
    if (area =? 1) && ((iz =? 7) || (iz =? 8)) && negb write
    then Some {| apikey_apikey := "l8xx&=k" |} else None
|}.

(** The same store without the analytics area. *)
Definition store_without_area : ConfigStore := {|
  get_area_by_name nm := None;
  get_iz_by_code := @get_iz_by_code (store 7);
  get_analysis_by_name := @get_analysis_by_name (store 7);
  get_iz_analysis_by_iz_and_analysis := @get_iz_analysis_by_iz_and_analysis (store 7);
  get_api_key_by_area_and_iz := @get_api_key_by_area_and_iz (store 7)
|}.

Definition request (fields : list (string * pyval)) : HttpRequest :=
  {| get_json := Some (PyDict (list_to_map fields)) |}.

Definition loans : HttpRequest :=
  request [("iz", PyStr "scf"); ("analysis", PyStr "loans")].

Definition loans_with (resume : pyval) : HttpRequest :=
  request [("iz", PyStr "scf"); ("analysis", PyStr "loans"); ("resume", resume)].

(** No value other than a [str] is formatted in the samples. *)
Definition repr (v : pyval) : string := "".

(** A remote that answers every call, and a parser that yields [doc]. *)
Definition remote (url params : string) (timeout : Z) : string + string :=
  inr "<QueryResult/>".

Definition parser (doc : soup) (content features : string) : soup := doc.

(** The handler against the store with organization 7, the remote above
    and a document [doc]. *)
Definition run (doc : soup) (req : HttpRequest) : M HttpResponse :=
  httpalmaanalytics (store := store 7) repr remote (parser doc) req.

Definition column (nm heading : string) : node :=
  Tag "xsd:element" (<["name" := nm]> (<["saw-sql:columnHeading" := heading]> ∅)) [].

Definition cell (tag value : string) : node := Tag tag ∅ [NavigableString value].

(** One column, one row: the round trip of the specification. *)
Definition report : soup :=
  [Tag "QueryResult" ∅
     [Tag "xsd:schema" ∅ [column "Column0" "0"; column "Column1" "Title"];
      Tag "rowset" ∅ [Tag "Row" ∅ [cell "Column0" "0"; cell "Column1" "Foo"]]]].

(** The column map of [report]. *)
Definition titles : gmap string string :=
  <["Column0" := "0"]> (<["Column1" := "Title"]> ∅).

(** Two declarations with the same name, the first one a provenance
    expression. *)
Definition twice_declared : soup :=
  [Tag "xsd:schema" ∅
     [column "Column1" "CASE  WHEN Provenance Code = 1 THEN 2 END";
      column "Column1" "Title"]].

(** A provenance column and a plain one. *)
Definition provenance : soup :=
  [Tag "xsd:schema" ∅
     [column "Column1" "CASE  WHEN Provenance Code = 1 THEN 2 END";
      column "Column2" "Title"]].

(** A declaration without a heading, and no row. *)
Definition no_heading : soup :=
  [Tag "xsd:schema" ∅ [Tag "xsd:element" (<["name" := "Column1"]> ∅) []]].

(** Declarations but no row. *)
Definition no_rows : soup :=
  [Tag "xsd:schema" ∅ [column "Column1" "Title"]].

(** Two errors reported in one document. *)
Definition two_errors : soup :=
  [Tag "web_service_result" ∅
     [Tag "errorList" ∅ [cell "error" "first"; cell "error" "second"]]].

(** A row in which two cells end up under the same header. *)
Definition same_header : node :=
  Tag "Row" ∅ [cell "Column0" "0"; cell "Column1" "old"; cell "Column2" "new"].

Definition both_provenance : gmap string string :=
  <["Column1" := "Provenance Code"]> (<["Column2" := "Provenance Code"]> ∅).

End Sample.

(** ** The remote call and what follows it *)

Definition is_log (e : event) : bool :=
  match e with Log _ _ => true | _ => false end.

(** The place of a lookup in the order of lines 88-116. *)
Definition lookup_rank (e : event) : option nat :=
  match e with
  | AreaByName _ _ => Some 1%nat
  | IzByCode _ _ => Some 2%nat
  | AnalysisByName _ _ => Some 3%nat
  | IzAnalysisByPair _ _ _ => Some 4%nat
  | ApiKeyByAreaIz _ _ _ _ => Some 5%nat
  | _ => None
  end.

(** Every character of [s] is one that [quote] keeps under [safe]. *)
Fixpoint kept (safe s : string) : bool :=
  match s with
  | EmptyString => true
  | String c rest => (urllib.always_safe c || Str.mem c safe) && kept safe rest
  end.

(** A declaration on which the loop of [get_columns] stops. *)
Definition undeclared (column : node) : bool :=
  match declared column with
  | Some _ => false
  | None => true
  end.

(** The exception it stops with: the heading is read first, the name
    second. *)
Definition missing_attribute (column : node) : exn :=
  match column with
  | Tag _ a _ =>
      match a !! "saw-sql:columnHeading" with
      | None => KeyError "saw-sql:columnHeading"
      | Some _ => KeyError "name"
      end
  | _ => TypeError
  end.

Section Answers.

Variable requests_get : string → string → Z → string + string.
Variable BeautifulSoup : string → string → soup.

(** The six ways the handler ends once [set_payload] has returned
    [payload]: what it sent and logged, in order, and its result. *)
Inductive answer (payload : string) : M HttpResponse → Prop :=
| ans_call_failed e :
    requests_get url payload 600 = inl e →
    answer payload
      ([HttpGet url payload 600], Value (plain ("API call failed: " +:+ e) 500))
| ans_error content e :
    requests_get url payload 600 = inr content →
    bs4.find "error" (BeautifulSoup content "xml") = Some e →
    answer payload
      ([HttpGet url payload 600; Log "Error: %s" [PyStr (bs4.text e)]],
       Value (plain ("Error: " +:+ bs4.text e) 500))
| ans_no_columns content :
    requests_get url payload 600 = inr content →
    bs4.find "error" (BeautifulSoup content "xml") = None →
    bs4.find_all "xsd:element" (BeautifulSoup content "xml") = [] →
    answer payload
      ([HttpGet url payload 600; Log "No columns found" []],
       Value (plain "No columns found" 404))
| ans_raised content column :
    requests_get url payload 600 = inr content →
    bs4.find "error" (BeautifulSoup content "xml") = None →
    List.find undeclared (bs4.find_all "xsd:element" (BeautifulSoup content "xml"))
    = Some column →
    answer payload ([HttpGet url payload 600], Raised (missing_attribute column))
| ans_no_rows content :
    requests_get url payload 600 = inr content →
    bs4.find "error" (BeautifulSoup content "xml") = None →
    bs4.find_all "xsd:element" (BeautifulSoup content "xml") ≠ [] →
    List.find undeclared (bs4.find_all "xsd:element" (BeautifulSoup content "xml"))
    = None →
    bs4.find_all "Row" (BeautifulSoup content "xml") = [] →
    answer payload
      ([HttpGet url payload 600; Log "No rows found" []],
       Value (plain "No rows found" 404))
| ans_success content :
    requests_get url payload 600 = inr content →
    bs4.find "error" (BeautifulSoup content "xml") = None →
    bs4.find_all "xsd:element" (BeautifulSoup content "xml") ≠ [] →
    List.find undeclared (bs4.find_all "xsd:element" (BeautifulSoup content "xml"))
    = None →
    bs4.find_all "Row" (BeautifulSoup content "xml") ≠ [] →
    answer payload
      ([HttpGet url payload 600],
       Value {| resp_body :=
                  JsonDumps
                    (bs4.text <$> bs4.find "ResumptionToken" (BeautifulSoup content "xml"))
                    (map (get_row
                            (fold_left add_column
                               (bs4.find_all "xsd:element" (BeautifulSoup content "xml")) ∅))
                       (bs4.find_all "Row" (BeautifulSoup content "xml")));
                status_code := 200;
                mimetype := Some "application/json" |}).

End Answers.

Module Sample2.

(** A report with a continuation token and a second row. *)
Definition paged : soup :=
  [Tag "QueryResult" ∅
     [Tag "ResumptionToken" ∅ [NavigableString "abc123"];
      Tag "xsd:schema" ∅
        [Sample.column "Column0" "0"; Sample.column "Column1" "Title"];
      Tag "rowset" ∅
        [Tag "Row" ∅ [Sample.cell "Column0" "0"; Sample.cell "Column1" "Foo"];
         Tag "Row" ∅ [Sample.cell "Column0" "0"]]]].

(** A remote that fails every call. *)
Definition down (url params : string) (timeout : Z) : string + string :=
  inl "503 Server Error".

(** A declaration with a name and no heading after a complete one, and
    one with neither attribute. *)
Definition half_declared : soup :=
  [Tag "xsd:schema" ∅
     [Sample.column "Column1" "Title";
      Tag "xsd:element" (<["name" := "Column2"]> ∅) [];
      Tag "xsd:element" ∅ []]].

(** The body of [Sample.loans] with a field the handler does not read. *)
Definition loans_and_more : HttpRequest :=
  Sample.request
    [("iz", PyStr "scf"); ("analysis", PyStr "loans"); ("limit", PyInt 5)].

End Sample2.

(** * Properties *)

(** ** Strings *)

Module StrFacts.
Import Str.

Lemma app_cons (x : ascii) (a b : string) : String x a +:+ b = String x (a +:+ b).
Proof. reflexivity. Qed.

Lemma app_nil_l (b : string) : "" +:+ b = b.
Proof. reflexivity. Qed.

Lemma app_nil_r (a : string) : a +:+ "" = a.
Proof. induction a as [|x a IH]; [done | by rewrite app_cons, IH]. Qed.

Lemma app_assoc (a b c : string) : (a +:+ b) +:+ c = a +:+ (b +:+ c).
Proof. induction a as [|x a IH]; [done | by rewrite !app_cons, IH]. Qed.

Lemma prefix_spec (n h : string) :
  String.prefix n h = true ↔ ∃ post, h = n +:+ post.
Proof.
  revert h; induction n as [|c n IH]; intros [|d h].
  - split; [intros _; by exists "" | done].
  - split; [intros _; by exists (String d h) | done].
  - split; [done | intros [post Hp]; discriminate].
  - change (String.prefix (String c n) (String d h))
      with (if ascii_dec c d then String.prefix n h else false).
    destruct (ascii_dec c d) as [->|Hne]; [rewrite IH|].
    + split; intros [post Hp]; exists post;
        [by rewrite Hp | by injection Hp].
    + split; [done | intros [post Hp]; injection Hp; congruence].
Qed.

(** The test the code runs is the substring relation of the
    specification. *)
Lemma contains_spec (n h : string) : contains n h = true ↔ Substring n h.
Proof.
  unfold Substring; induction h as [|d h IH]; cbn [contains].
  - rewrite orb_false_r, prefix_spec; split.
    + intros [post Hp]; by exists "", post.
    + intros ([|x pre] & post & Hp); [by exists post | discriminate].
  - rewrite orb_true_iff, prefix_spec, IH; split.
    + intros [[post Hp] | (pre & post & Hp)].
      * by exists "", post.
      * exists (String d pre), post; by rewrite app_cons, Hp.
    + intros ([|x pre] & post & Hp).
      * left; by exists post.
      * right; exists pre, post; by injection Hp.
Qed.

Lemma contains_app_r (n pre : string) : contains n (pre +:+ n) = true.
Proof. apply contains_spec; exists pre, ""; by rewrite app_nil_r. Qed.

Lemma bind_app (f : ascii → string) (a b : string) :
  bind f (a +:+ b) = bind f a +:+ bind f b.
Proof.
  induction a as [|x a IH]; [done|].
  rewrite app_cons; simpl; by rewrite IH, app_assoc.
Qed.

Lemma mem_app (c : ascii) (a b : string) : mem c (a +:+ b) = mem c a || mem c b.
Proof.
  induction a as [|x a IH]; [done|].
  rewrite app_cons; simpl; by rewrite IH, orb_assoc.
Qed.

Lemma mem_bind (c : ascii) (f : ascii → string) (s : string) :
  (∀ x, mem c (f x) = false) → mem c (bind f s) = false.
Proof.
  intros Hf; induction s as [|x s IH]; simpl; [done|].
  by rewrite mem_app, Hf, IH.
Qed.

Lemma replace_app (a b : ascii) (s t : string) :
  replace a b (s +:+ t) = replace a b s +:+ replace a b t.
Proof.
  induction s as [|x s IH]; [done|].
  rewrite app_cons; simpl; by rewrite IH.
Qed.

Lemma split_cons (sep : ascii) (s : string) : ∃ w ws, split sep s = w :: ws.
Proof.
  induction s as [|c s (w & ws & IH)]; cbn [split]; [by eauto|].
  destruct (Ascii.eqb c sep); [by eauto | rewrite IH; by eauto].
Qed.

(** A piece without the separator, then the separator: the piece is the
    first component. *)
Lemma split_app (sep : ascii) (a b : string) :
  mem sep a = false → split sep (a +:+ String sep b) = a :: split sep b.
Proof.
  induction a as [|c a IH].
  - intros _; rewrite app_nil_l; simpl; by rewrite Ascii.eqb_refl.
  - rewrite app_cons; simpl.
    rewrite orb_false_iff, Ascii.eqb_sym; intros [Hc Ha].
    by rewrite Hc, IH.
Qed.

Lemma split_last (sep : ascii) (a : string) :
  mem sep a = false → split sep a = [a].
Proof.
  induction a as [|c a IH]; simpl; [done|].
  rewrite orb_false_iff, Ascii.eqb_sym; intros [Hc Ha].
  by rewrite Hc, IH.
Qed.

Lemma partition_app (sep : ascii) (k v : string) :
  mem sep k = false → partition sep (k +:+ String sep v) = (k, v).
Proof.
  induction k as [|c k IH].
  - intros _; rewrite app_nil_l; simpl; by rewrite Ascii.eqb_refl.
  - rewrite app_cons; simpl.
    rewrite orb_false_iff, Ascii.eqb_sym; intros [Hc Hk].
    by rewrite Hc, IH.
Qed.

End StrFacts.

(** ** [urllib.parse] *)

Module UrlFacts.
Import Str StrFacts urllib.

Ltac each_byte c := destruct c as [[] [] [] [] [] [] [] []].

Lemma percent_no_space (c : ascii) : replace " " "+" (percent c) = percent c.
Proof. each_byte c; reflexivity. Qed.

Lemma always_safe_space : always_safe " " = false.
Proof. reflexivity. Qed.

Lemma quoter_with_space (safe : string) (c : ascii) :
  replace " " "+" (quoter (safe +:+ " ") c) = plus_char safe c.
Proof.
  unfold plus_char, quoter; rewrite mem_app; cbn [mem].
  destruct (Ascii.eqb c " ") eqn:Hc.
  - apply Ascii.eqb_eq in Hc as ->.
    rewrite always_safe_space, orb_true_r; reflexivity.
  - rewrite !orb_false_r.
    destruct (always_safe c || mem c safe); [|apply percent_no_space].
    cbn [replace]; by rewrite Hc.
Qed.

(** [quote_plus] is a character-by-character map, whichever of its two
    branches runs. *)
Lemma quote_plus_bind (s safe : string) :
  quote_plus s safe = bind (plus_char safe) s.
Proof.
  unfold quote_plus, quote.
  destruct (mem " " s) eqn:Hs; cbn [negb].
  - clear Hs; induction s as [|c s IH]; [done|].
    cbn [bind]; by rewrite replace_app, quoter_with_space, IH.
  - induction s as [|c s IH]; [done|].
    cbn [mem] in Hs; apply orb_false_iff in Hs as [Hc Hs].
    cbn [bind]; rewrite IH by done.
    unfold plus_char; by rewrite Ascii.eqb_sym, Hc.
Qed.

Lemma quote_plus_app (a b safe : string) :
  quote_plus (a +:+ b) safe = quote_plus a safe +:+ quote_plus b safe.
Proof. rewrite !quote_plus_bind; apply bind_app. Qed.

Lemma plus_char_no_amp (c : ascii) : mem "&" (plus_char ":%" c) = false.
Proof. each_byte c; reflexivity. Qed.

Lemma plus_char_no_eq (c : ascii) : mem "=" (plus_char ":%" c) = false.
Proof. each_byte c; reflexivity. Qed.

(** Neither separator of a query string survives in an escaped value. *)
Lemma quote_plus_no_amp (s : string) : mem "&" (quote_plus s ":%") = false.
Proof. rewrite quote_plus_bind; apply mem_bind, plus_char_no_amp. Qed.

Lemma quote_plus_no_eq (s : string) : mem "=" (quote_plus s ":%") = false.
Proof. rewrite quote_plus_bind; apply mem_bind, plus_char_no_eq. Qed.

Lemma urlencode_base (path apikey : string) :
  urlencode
    [("path", path); ("apikey", apikey); ("limit", "1000"); ("col_names", "true")]
    ":%"
  = base_query path apikey.
Proof.
  unfold urlencode, base_query; cbn [map join fst snd].
  change (quote_plus "path" ":%") with "path".
  change (quote_plus "apikey" ":%") with "apikey".
  change (quote_plus "limit" ":%") with "limit".
  change (quote_plus "1000" ":%") with "1000".
  change (quote_plus "col_names" ":%") with "col_names".
  change (quote_plus "true" ":%") with "true".
  rewrite !app_assoc; reflexivity.
Qed.

(** The base query has the four keys and nothing else. *)
Lemma pairs_base (path apikey : string) :
  pairs (base_query path apikey)
  = [("path", quote_plus path ":%"); ("apikey", quote_plus apikey ":%");
     ("limit", "1000"); ("col_names", "true")].
Proof.
  unfold pairs, base_query.
  change ("path=" +:+ quote_plus path ":%" +:+ "&apikey=" +:+
          quote_plus apikey ":%" +:+ "&limit=1000&col_names=true")
    with (("path" +:+ String "=" (quote_plus path ":%")) +:+ String "&"
            (("apikey" +:+ String "=" (quote_plus apikey ":%")) +:+ String "&"
              "limit=1000&col_names=true")).
  assert (Hamp : ∀ k v, mem "&" k = false →
            mem "&" (k +:+ String "=" (quote_plus v ":%")) = false).
  { intros k v Hk. rewrite mem_app, Hk; cbn [mem orb].
    by rewrite quote_plus_no_amp. }
  rewrite !split_app by (by apply Hamp).
  cbn [map]; by rewrite !partition_app.
Qed.

(** A colon or a percent sign of the value is in the query string as it
    is. *)
Lemma quote_plus_keeps (c : ascii) (a b : string) :
  c = ":"%char ∨ c = "%"%char →
  quote_plus (a +:+ String c b) ":%"
  = quote_plus a ":%" +:+ String c (quote_plus b ":%").
Proof.
  intros Hc; rewrite quote_plus_app.
  change (String c b) with (String c "" +:+ b); rewrite quote_plus_app.
  by destruct Hc as [-> | ->].
Qed.

Lemma has_token_base (path apikey : string) :
  has_token (base_query path apikey) = false.
Proof. unfold has_token; by rewrite pairs_base. Qed.

(** Once [&token=...] is appended the query string has a [token] key,
    whatever the token is. *)
Lemma has_token_appended (path apikey tok : string) :
  has_token (base_query path apikey +:+ "&token=" +:+ tok) = true.
Proof.
  unfold has_token, pairs, base_query; rewrite !app_assoc.
  change ("path=" +:+ quote_plus path ":%" +:+ "&apikey=" +:+
          quote_plus apikey ":%" +:+ "&limit=1000&col_names=true" +:+
          "&token=" +:+ tok)
    with (("path" +:+ String "=" (quote_plus path ":%")) +:+ String "&"
            (("apikey" +:+ String "=" (quote_plus apikey ":%")) +:+ String "&"
               ("limit=1000" +:+ String "&"
                  ("col_names=true" +:+ String "&" ("token=" +:+ tok))))).
  assert (Hamp : ∀ k v, mem "&" k = false →
            mem "&" (k +:+ String "=" (quote_plus v ":%")) = false).
  { intros k v Hk. rewrite mem_app, Hk; cbn [mem orb].
    by rewrite quote_plus_no_amp. }
  rewrite !split_app by (by apply Hamp || done).
  destruct (split_cons "&" tok) as (w & ws & Hw).
  change ("token=" +:+ tok)
    with (String "t" (String "o" (String "k" (String "e" (String "n"
            (String "=" tok)))))).
  cbn [split]; rewrite Hw; cbn.
  by rewrite !orb_true_r.
Qed.

End UrlFacts.

(** ** The monad *)

Lemma bind_value {A B} (t : list event) (a : A) (k : A → M B) :
  ((t, Value a) : M A) ≫= k = (t ++ trace (k a), result (k a)).
Proof. unfold mbind, M_bind, trace, result; by destruct (k a). Qed.

Lemma bind_raised {A B} (t : list event) (e : exn) (k : A → M B) :
  ((t, Raised e) : M A) ≫= k = (t, Raised e).
Proof. reflexivity. Qed.

Lemma M_eta {A} (m : M A) : m = (trace m, result m).
Proof. by destruct m. Qed.

(** ** Request validation and configuration lookups *)

Section SetPayload.

Context {store : ConfigStore}.
Variable py_repr : pyval → string.

Ltac lookups :=
  unfold area_by_name, iz_by_code, analysis_by_name,
    iz_analysis_by_iz_and_analysis, api_key_by_area_and_iz;
  repeat match goal with
  | |- context [get_area_by_name ?a] =>
      destruct (get_area_by_name a) eqn:?
  | |- context [get_iz_by_code ?a] =>
      destruct (get_iz_by_code a) eqn:?
  | |- context [get_analysis_by_name ?a] =>
      destruct (get_analysis_by_name a) eqn:?
  | |- context [get_iz_analysis_by_iz_and_analysis ?a ?b] =>
      destruct (get_iz_analysis_by_iz_and_analysis a b) eqn:?
  | |- context [get_api_key_by_area_and_iz ?a ?b ?c] =>
      destruct (get_api_key_by_area_and_iz a b c) eqn:?
  end.

(** On a JSON object, [set_payload] ends in one of the seven ways of
    [resolution]. *)
Lemma set_payload_resolution (req : HttpRequest) (d : gmap string pyval) :
  get_json req = Some (PyDict d) →
  resolution py_repr d (set_payload py_repr req).
Proof.
  intros Hreq; unfold set_payload; rewrite Hreq; cbn.
  destruct (truthy (default PyNone (d !! "iz"))) eqn:Hiz; cbn.
  2: { apply res_missing; unfold required_fields; by rewrite Hiz. }
  destruct (truthy (default PyNone (d !! "analysis"))) eqn:Han; cbn.
  2: { apply res_missing; unfold required_fields; by rewrite Hiz, Han. }
  assert (Hok : required_fields d = true)
    by (unfold required_fields; by rewrite Hiz, Han).
  lookups; cbn.
  - match goal with
    | |- context [if bool_decide (is_Some (d !! "resume")) then ?a else ?b] =>
        replace (if bool_decide (is_Some (d !! "resume")) then a else b)
          with a by (by destruct (d !! "resume"))
    end.
    cbn; by eapply res_payload.
  - by eapply res_no_key.
  - by eapply res_no_path.
  - by eapply res_no_analysis.
  - by eapply res_no_iz.
  - by eapply res_no_area.
Qed.

(** A body that is JSON but not an object has no [get]. *)
Lemma set_payload_not_object (req : HttpRequest) (v : pyval) :
  get_json req = Some v →
  (∀ d, v ≠ PyDict d) →
  set_payload py_repr req = ([], Raised (AttributeError "get")).
Proof.
  intros Hreq Hv; unfold set_payload; rewrite Hreq.
  destruct v; try reflexivity; by edestruct Hv.
Qed.

Lemma set_payload_invalid_json (req : HttpRequest) :
  get_json req = None →
  set_payload py_repr req
  = ([Log "Invalid JSON in request body" []],
     Value (inl (plain "Invalid JSON in request body" 400))).
Proof. intros Hreq; unfold set_payload; by rewrite Hreq. Qed.

(** What [set_payload] does to the outside, whatever the request: no
    outbound call, and it returns a payload only after five lookups that
    all found their record. *)
Lemma set_payload_trace (req : HttpRequest) :
  existsb is_http_get (trace (set_payload py_repr req)) = false ∧
  (∀ payload, result (set_payload py_repr req) = Value (inr payload) →
     existsb is_absent_lookup (trace (set_payload py_repr req)) = false) ∧
  (∀ resp, result (set_payload py_repr req) = Value (inl resp) →
     if existsb is_absent_lookup (trace (set_payload py_repr req))
     then status_code resp = 404
     else status_code resp = 400
          ∧ existsb is_lookup (trace (set_payload py_repr req)) = false) ∧
  (∀ e, result (set_payload py_repr req) = Raised e →
     trace (set_payload py_repr req) = []).
Proof.
  destruct (get_json req) as [v|] eqn:Hreq.
  - destruct v as [| | | | | |d];
      try (rewrite (set_payload_not_object req _ Hreq) by done;
           repeat split; intros; by simplify_eq).
    destruct (set_payload_resolution req d Hreq); cbn;
      repeat split; intros; by simplify_eq.
  - rewrite set_payload_invalid_json by done.
    cbn; repeat split; intros; by simplify_eq.
Qed.

End SetPayload.

(** ** The parsed document *)

Module Bs4Facts.
Import bs4.

Lemma find_all_tags (nm : string) (cs : list node) (n : node) :
  n ∈ find_all nm cs → name n = nm ∧ n ∈ descendants cs.
Proof.
  unfold find_all; rewrite list_elem_of_In, filter_In, <- list_elem_of_In.
  unfold has_name; rewrite String.eqb_eq; tauto.
Qed.

(** [find] is the head of [find_all]: the first match in document
    order. *)
Lemma find_first (nm : string) (cs : list node) (e : node) :
  find nm cs = Some e ↔ ∃ rest, find_all nm cs = e :: rest.
Proof.
  unfold find; destruct (find_all nm cs) as [|x rest]; cbn.
  - split; [done | by intros [? ?]].
  - split; [intros [= ->]; by eauto | intros [? [= -> _]]; done].
Qed.

Lemma find_none (nm : string) (cs : list node) :
  find nm cs = None ↔ find_all nm cs = [].
Proof. unfold find; by destruct (find_all nm cs). Qed.

(** A child tag of a node is among its [findChildren()]. *)
Lemma child_in_findChildren (n c : node) (nm : string) (a : gmap string string)
    (cs : list node) :
  c = Tag nm a cs → c ∈ contents n → c ∈ findChildren n.
Proof.
  intros -> Hc; unfold findChildren, descendants.
  rewrite list_elem_of_In, in_flat_map; exists (Tag nm a cs).
  split; [by apply list_elem_of_In | cbn; by left].
Qed.

(** In a row whose cells hold character data only, [findChildren()] is
    the list of the row's child tags. *)
Lemma findChildren_flat (n : node) :
  (∀ c, c ∈ contents n → descendants (contents c) = []) →
  findChildren n = List.filter is_tag (contents n).
Proof.
  unfold findChildren; generalize (contents n) as cs.
  induction cs as [|c cs IH]; intros Hflat; [done|].
  unfold descendants in *; cbn [flat_map List.filter].
  rewrite IH by (intros c' Hc'; apply Hflat; by apply list_elem_of_further).
  pose proof (Hflat c (list_elem_of_here _ _)) as Hc.
  destruct c as [nm a cs'| |]; cbn in *; [by rewrite Hc | done..].
Qed.

End Bs4Facts.

(** ** Column and row extraction *)

Section Extraction.

Lemma get_columns_step_declared (columns : gmap string string) (column : node)
    (nm heading : string) :
  declared column = Some (nm, heading) →
  get_columns_step columns column = ([], Value (<[nm := normalized heading]> columns)).
Proof.
  unfold declared, get_columns_step, normalized.
  destruct column as [tag a cs| |]; cbn; [|done..].
  destruct (a !! "name") as [n|] eqn:Hn; cbn; [|done].
  destruct (a !! "saw-sql:columnHeading") as [h|] eqn:Hh; cbn; [|done].
  intros [= -> ->].
  destruct (Str.contains _ heading); cbn; [|done].
  by rewrite insert_insert_eq.
Qed.

Lemma get_columns_step_undeclared (columns : gmap string string) (column : node) :
  declared column = None →
  ∃ e, get_columns_step columns column = ([], Raised e).
Proof.
  unfold declared, get_columns_step.
  destruct column as [tag a cs| |]; cbn; [|by eauto..].
  destruct (a !! "saw-sql:columnHeading") as [h|] eqn:Hh; cbn; [|by eauto].
  destruct (a !! "name") as [n|] eqn:Hn; cbn; [done | by eauto].
Qed.

Lemma for_each_columns (l : list node) (acc : gmap string string) :
  trace (for_each get_columns_step l acc) = [] ∧
  (Forall (λ c, is_Some (declared c)) l →
     result (for_each get_columns_step l acc) = Value (fold_left add_column l acc)) ∧
  (∀ columns, result (for_each get_columns_step l acc) = Value columns →
     Forall (λ c, is_Some (declared c)) l).
Proof.
  revert acc; induction l as [|c l IH]; intros acc; cbn [for_each].
  - repeat split; by constructor.
  - destruct (declared c) as [[nm h]|] eqn:Hc.
    + rewrite (get_columns_step_declared _ _ _ _ Hc), bind_value.
      destruct (IH (<[nm := normalized h]> acc)) as (Ht & Hv & Hd).
      cbn [trace result fst snd app]; repeat split.
      * done.
      * intros Hall; inversion Hall; subst.
        rewrite Hv by done; cbn [fold_left].
        replace (add_column acc c) with (<[nm := normalized h]> acc);
          [done | unfold add_column; by rewrite Hc].
      * intros columns Hcols; constructor; [by rewrite Hc | by eapply Hd].
    + destruct (get_columns_step_undeclared acc c Hc) as [e ->].
      rewrite bind_raised; cbn; repeat split.
      * intros Hall; inversion Hall as [|? ? [? Hs]]; congruence.
      * done.
Qed.

End Extraction.

Section Rows.

Variable columns : gmap string string.

Lemma get_rows_step_insert (values : row) (kid : node) :
  get_rows_step columns values kid
  = if is_column0 kid then values
    else <[header_of columns (bs4.name kid) := bs4.text kid]> values.
Proof.
  unfold get_rows_step, is_column0, header_of.
  destruct (String.eqb (bs4.name kid) "Column0"); cbn; [done|].
  by destruct (columns !! bs4.name kid).
Qed.

(** A header that no later cell is filed under keeps its value. *)
Lemma fold_rows_keeps (key : string) (kids : list node) (values : row) :
  (∀ kid, kid ∈ kids → is_column0 kid = false →
     header_of columns (bs4.name kid) ≠ key) →
  fold_left (get_rows_step columns) kids values !! key = values !! key.
Proof.
  revert values; induction kids as [|kid kids IH]; intros values Hkids; [done|].
  cbn [fold_left]; rewrite IH.
  - rewrite get_rows_step_insert.
    destruct (is_column0 kid) eqn:Hk; [done|].
    apply lookup_insert_ne, Hkids; [apply list_elem_of_here | done].
  - intros k Hk; apply Hkids; by apply list_elem_of_further.
Qed.

(** Every entry of the mapping was written for a cell that is not a
    [Column0]. *)
Lemma fold_rows_origin (kids : list node) (values : row) (key v : string) :
  fold_left (get_rows_step columns) kids values !! key = Some v →
  values !! key = Some v ∨
  ∃ kid, kid ∈ kids ∧ is_column0 kid = false
         ∧ header_of columns (bs4.name kid) = key ∧ bs4.text kid = v.
Proof.
  revert values; induction kids as [|kid kids IH]; intros values; [by left|].
  cbn [fold_left]; intros [Hv | (k & Hin & Hk)]%IH.
  - rewrite get_rows_step_insert in Hv.
    destruct (is_column0 kid) eqn:Hkid; [by left|].
    apply lookup_insert_Some in Hv as [[<- <-] | [_ Hv]]; [|by left].
    right; exists kid; split; [apply list_elem_of_here | done].
  - right; exists k; split; [by apply list_elem_of_further | done].
Qed.

Lemma fold_rows_is_Some (kids : list node) (values : row) (key : string) :
  is_Some (values !! key) →
  is_Some (fold_left (get_rows_step columns) kids values !! key).
Proof.
  revert values; induction kids as [|kid kids IH]; intros values Hv; [done|].
  cbn [fold_left]; apply IH; rewrite get_rows_step_insert.
  destruct (is_column0 kid); [done|].
  rewrite lookup_insert; case_decide; [by eexists | done].
Qed.

(** Every cell that is not a [Column0] has its header in the mapping. *)
Lemma fold_rows_covers (kids : list node) (values : row) (kid : node) :
  kid ∈ kids → is_column0 kid = false →
  is_Some (fold_left (get_rows_step columns) kids values
             !! header_of columns (bs4.name kid)).
Proof.
  intros Hin Hkid; revert values.
  induction Hin as [kid kids | kid k kids Hin IH]; intros values; cbn [fold_left].
  - apply fold_rows_is_Some; rewrite get_rows_step_insert, Hkid.
    rewrite lookup_insert_eq; by eexists.
  - apply IH, Hkid.
Qed.

(** The loop is the mapping of the specification. *)
Lemma fold_rows_cells (kids : list node) :
  fold_left (get_rows_step columns) kids ∅ = row_of_cells columns kids.
Proof.
  induction kids as [|kid kids IH] using rev_ind; [done|].
  rewrite fold_left_app; cbn [fold_left].
  rewrite IH, get_rows_step_insert; unfold row_of_cells.
  rewrite List.filter_app; cbn [List.filter].
  destruct (is_column0 kid); cbn [negb].
  - by rewrite app_nil_r.
  - by rewrite map_app, reverse_app.
Qed.

Lemma row_of_cells_drops_column0 (kids : list node) :
  row_of_cells columns (List.filter (λ kid, negb (is_column0 kid)) kids)
  = row_of_cells columns kids.
Proof.
  unfold row_of_cells; do 3 f_equal.
  induction kids as [|kid kids IH]; [done|]; cbn [List.filter].
  destruct (negb (is_column0 kid)) eqn:Hk; [|done].
  cbn [List.filter]; by rewrite Hk, IH.
Qed.

Lemma rows_append (rowlist : list node) (acc : list row) :
  fold_left (λ rows value, rows ++ [get_row columns value]) rowlist acc
  = acc ++ map (get_row columns) rowlist.
Proof.
  revert acc; induction rowlist as [|r l IH]; intros acc; cbn.
  - by rewrite app_nil_r.
  - by rewrite IH, <- app_assoc.
Qed.

Lemma get_rows_none (soup : soup) :
  bs4.find_all "Row" soup = [] →
  get_rows soup columns
  = ([Log "No rows found" []], Value (inl (plain "No rows found" 404))).
Proof. unfold get_rows; by intros ->. Qed.

Lemma get_rows_some (soup : soup) :
  bs4.find_all "Row" soup ≠ [] →
  get_rows soup columns
  = ([], Value (inr (map (get_row columns) (bs4.find_all "Row" soup)))).
Proof.
  unfold get_rows; intros Hrows; rewrite rows_append.
  by destruct (bs4.find_all "Row" soup).
Qed.

End Rows.

(** ** The pipeline *)

Lemma get_columns_none (soup : soup) :
  bs4.find_all "xsd:element" soup = [] →
  get_columns soup
  = ([Log "No columns found" []], Value (inl (plain "No columns found" 404))).
Proof. unfold get_columns; by intros ->. Qed.

Lemma get_columns_some (soup : soup) :
  bs4.find_all "xsd:element" soup ≠ [] →
  get_columns soup
  = ([], match result (for_each get_columns_step (bs4.find_all "xsd:element" soup) ∅) with
         | Value columns => Value (inr columns)
         | Raised e => Raised e
         end).
Proof.
  unfold get_columns; intros Hcols.
  destruct (bs4.find_all "xsd:element" soup) as [|c l] eqn:Hl; [done|].
  destruct (for_each_columns (c :: l) ∅) as (Ht & _).
  rewrite (M_eta (for_each _ _ _)), Ht.
  by destruct (result (for_each get_columns_step (c :: l) ∅)).
Qed.

(** When every declaration has its two attributes the loop runs to its end. *)
Lemma get_columns_declared (soup : soup) :
  bs4.find_all "xsd:element" soup ≠ [] →
  Forall (λ c, is_Some (declared c)) (bs4.find_all "xsd:element" soup) →
  get_columns soup
  = ([], Value (inr (fold_left add_column (bs4.find_all "xsd:element" soup) ∅))).
Proof.
  intros Hcols Hall; rewrite get_columns_some by done.
  destruct (for_each_columns (bs4.find_all "xsd:element" soup) ∅) as (_ & Hv & _).
  by rewrite Hv.
Qed.

Lemma get_columns_value (soup : soup) (columns : gmap string string) :
  result (get_columns soup) = Value (inr columns) →
  Forall (λ c, is_Some (declared c)) (bs4.find_all "xsd:element" soup) ∧
  columns = fold_left add_column (bs4.find_all "xsd:element" soup) ∅.
Proof.
  destruct (decide (bs4.find_all "xsd:element" soup = [])) as [Hl | Hl].
  - by rewrite get_columns_none.
  - rewrite get_columns_some by done; cbn.
    destruct (for_each_columns (bs4.find_all "xsd:element" soup) ∅) as (_ & Hv & Hd).
    destruct (result (for_each _ _ _)) as [cols|] eqn:Hr; [|done].
    intros [= <-]; split; [by eapply Hd|].
    specialize (Hv (Hd _ eq_refl)); congruence.
Qed.

Section Pipeline.

Context {store : ConfigStore}.
Variable py_repr : pyval → string.
Variable requests_get : string → string → Z → string + string.
Variable BeautifulSoup : string → string → soup.

Lemma get_soup_error (content : string) (e : node) :
  bs4.find "error" (BeautifulSoup content "xml") = Some e →
  get_soup BeautifulSoup content
  = ([Log "Error: %s" [PyStr (bs4.text e)]],
     Value (inl (plain ("Error: " +:+ bs4.text e) 500))).
Proof. unfold get_soup; by intros ->. Qed.

Lemma get_soup_ok (content : string) :
  bs4.find "error" (BeautifulSoup content "xml") = None →
  get_soup BeautifulSoup content = ([], Value (inr (BeautifulSoup content "xml"))).
Proof. unfold get_soup; by intros ->. Qed.

(** From the remote call on, the handler consults the store no more. *)
Lemma respond_no_lookup (payload : string) :
  existsb is_lookup (trace (respond requests_get BeautifulSoup payload)) = false.
Proof.
  unfold respond, make_api_call.
  destruct (requests_get url payload 600) as [e | content]; [done|].
  cbn -[get_soup get_columns get_rows].
  destruct (bs4.find "error" (BeautifulSoup content "xml")) as [e|] eqn:He.
  { by rewrite (get_soup_error _ _ He). }
  rewrite (get_soup_ok _ He).
  set (soup := BeautifulSoup content "xml").
  cbn -[get_columns get_rows].
  destruct (decide (bs4.find_all "xsd:element" soup = [])) as [Hc | Hc].
  { by rewrite get_columns_none. }
  rewrite get_columns_some by done.
  destruct (result (for_each _ _ _)) as [columns|]; [|done].
  cbn -[get_rows].
  destruct (decide (bs4.find_all "Row" soup = [])) as [Hr | Hr].
  - by rewrite get_rows_none.
  - by rewrite get_rows_some.
Qed.

Lemma handler_early (req : HttpRequest) (resp : HttpResponse) :
  result (set_payload py_repr req) = Value (inl resp) →
  httpalmaanalytics py_repr requests_get BeautifulSoup req
  = (trace (set_payload py_repr req), Value resp).
Proof.
  unfold httpalmaanalytics; intros Hr.
  rewrite (M_eta (set_payload _ _)), Hr; cbn; by rewrite app_nil_r.
Qed.

Lemma handler_raised (req : HttpRequest) (e : exn) :
  result (set_payload py_repr req) = Raised e →
  httpalmaanalytics py_repr requests_get BeautifulSoup req
  = (trace (set_payload py_repr req), Raised e).
Proof.
  unfold httpalmaanalytics; intros Hr.
  by rewrite (M_eta (set_payload _ _)), Hr.
Qed.

Lemma handler_respond (req : HttpRequest) (payload : string) :
  result (set_payload py_repr req) = Value (inr payload) →
  httpalmaanalytics py_repr requests_get BeautifulSoup req
  = (trace (set_payload py_repr req)
       ++ trace (respond requests_get BeautifulSoup payload),
     result (respond requests_get BeautifulSoup payload)).
Proof.
  unfold httpalmaanalytics; intros Hr.
  rewrite (M_eta (set_payload _ _)), Hr.
  by rewrite <- (bind_value _ payload (λ p, respond requests_get BeautifulSoup p)).
Qed.

End Pipeline.

(** * The claims of the specification *)

Lemma no_lookup_no_absent (t : list event) :
  existsb is_lookup t = false → existsb is_absent_lookup t = false.
Proof.
  induction t as [|e t IH]; [done|]; cbn.
  intros [He Ht]%orb_false_iff; rewrite IH by done.
  by destruct e as [| ? [] | ? [] | ? [] | ? ? [] | ? ? ? [] |].
Qed.

Section Requests.

Context {store : ConfigStore}.
Variable py_repr : pyval → string.
Variable requests_get : string → string → Z → string + string.
Variable BeautifulSoup : string → string → soup.

(** A JSON object in which [iz] or [analysis] is missing or falsy is
    answered with 400; the log record is all the handler did. *)
Lemma missing_field_400 (req : HttpRequest) (d : gmap string pyval) :
  get_json req = Some (PyDict d) →
  required_fields d = false →
  httpalmaanalytics py_repr requests_get BeautifulSoup req
  = ([Log "Missing required parameters in POST request body" []],
     Value (plain "Pass iz, and analysis in the request body" 400)).
Proof.
  intros Hreq Hd.
  pose proof (set_payload_resolution py_repr req d Hreq) as Hres.
  inversion Hres as [Hm Hsp | | | | | |]; try congruence.
  rewrite (handler_early _ _ _ _ (plain "Pass iz, and analysis in the request body" 400));
    by rewrite <- Hsp.
Qed.

(** C1.  The claim asks for status 400 on every body that is valid JSON
    and lacks a truthy [iz] or [analysis].  A body that is valid JSON but
    not an object (an array, a string, a number, [null]) has neither field,
    and there the handler returns no response at all: [req_body.get]
    raises [AttributeError], which [set_payload] does not catch.  (For
    JSON objects the claim holds, see [missing_field_400].) *)
Theorem C1_body_without_fields_raises (req : HttpRequest) (v : pyval) :
  get_json req = Some v →
  (∀ d, v ≠ PyDict d) →
  httpalmaanalytics py_repr requests_get BeautifulSoup req
  = ([], Raised (AttributeError "get")).
Proof.
  intros Hreq Hv.
  pose proof (set_payload_not_object py_repr req v Hreq Hv) as Hsp.
  rewrite (handler_raised _ _ _ _ (AttributeError "get")); by rewrite Hsp.
Qed.

(** C2.  Whenever one of the five configuration lookups of a request
    comes back without a record, the handler returns a response with status
    404 and the request's trace holds no outbound GET. *)
Theorem C2_absent_lookup_is_404 (req : HttpRequest) :
  existsb is_absent_lookup
    (trace (httpalmaanalytics py_repr requests_get BeautifulSoup req)) = true →
  ∃ resp,
    result (httpalmaanalytics py_repr requests_get BeautifulSoup req) = Value resp
    ∧ status_code resp = 404
    ∧ existsb is_http_get
        (trace (httpalmaanalytics py_repr requests_get BeautifulSoup req)) = false.
Proof.
  destruct (set_payload_trace py_repr req) as (Hget & Hpayload & Hresp & Hexn).
  destruct (result (set_payload py_repr req)) as [[resp | payload] | e] eqn:Hr.
  - rewrite (handler_early _ _ _ _ _ Hr); cbn [trace result fst snd].
    intros Habs; specialize (Hresp resp eq_refl); rewrite Habs in Hresp.
    by exists resp.
  - rewrite (handler_respond _ _ _ _ _ Hr); cbn [trace result fst snd].
    rewrite existsb_app, (Hpayload payload eq_refl).
    by rewrite (no_lookup_no_absent _ (respond_no_lookup _ _ _)).
  - rewrite (handler_raised _ _ _ _ _ Hr); cbn [trace result fst snd].
    by rewrite (Hexn e eq_refl).
Qed.

(** Read off the store: a JSON object with both fields either resolves to
    a payload, all five records found, or is answered with 404 before any
    call goes out. *)
Lemma resolved_or_404 (req : HttpRequest) (d : gmap string pyval) :
  get_json req = Some (PyDict d) →
  required_fields d = true →
  (∃ payload, result (set_payload py_repr req) = Value (inr payload))
  ∨ (∃ resp,
       httpalmaanalytics py_repr requests_get BeautifulSoup req
       = (trace (set_payload py_repr req), Value resp)
       ∧ status_code resp = 404
       ∧ existsb is_absent_lookup (trace (set_payload py_repr req)) = true
       ∧ existsb is_http_get (trace (set_payload py_repr req)) = false).
Proof.
  intros Hreq Hd.
  pose proof (handler_early py_repr requests_get BeautifulSoup req) as Hearly.
  destruct (set_payload_resolution py_repr req d Hreq);
    [congruence | right; eexists; split; [by apply Hearly | done].. | left; by eexists].
Qed.

End Requests.

(** The round trip of the specification: one column, one row. *)
Example round_trip :
  Sample.run Sample.report Sample.loans
  = ([AreaByName "analytics" (Some {| area_id := 1 |});
      IzByCode (PyStr "scf") (Some (Sample.scf 7));
      AnalysisByName (PyStr "loans") (Some {| analysis_name := "loans" |});
      IzAnalysisByPair (Sample.scf 7) {| analysis_name := "loans" |}
        (Some {| iz_analysis_path := "/shared/Foo Bar:x%2F/loans" |});
      ApiKeyByAreaIz 1 7 false (Some {| apikey_apikey := "l8xx&=k" |});
      HttpGet url
        "path=%2Fshared%2FFoo+Bar:x%2F%2Floans&apikey=l8xx%26%3Dk&limit=1000&col_names=true"
        600],
     Value {| resp_body := JsonDumps None [<["Title" := "Foo"]> ∅];
              status_code := 200;
              mimetype := Some "application/json" |}).
Proof. vm_compute; reflexivity. Qed.

Lemma C1_body_without_fields_raises_witness :
  Sample.run [] {| get_json := Some (PyList []) |} = ([], Raised (AttributeError "get")).
Proof.
  apply (C1_body_without_fields_raises (store := Sample.store 7)) with (v := PyList []).
  - reflexivity.
  - intros d; discriminate.
Defined.

Lemma C2_absent_lookup_is_404_witness :
  ∃ resp,
    result (httpalmaanalytics (store := Sample.store_without_area)
              Sample.repr Sample.remote (Sample.parser Sample.report) Sample.loans)
    = Value resp
    ∧ status_code resp = 404
    ∧ existsb is_http_get
        (trace (httpalmaanalytics (store := Sample.store_without_area)
                  Sample.repr Sample.remote (Sample.parser Sample.report) Sample.loans))
      = false.
Proof.
  apply (C2_absent_lookup_is_404 (store := Sample.store_without_area)).
  vm_compute; reflexivity.
Defined.

Section Resolved.

Context {store : ConfigStore}.
Variable py_repr : pyval → string.

(** C3, as the code has it.  A payload that [set_payload] returns is the
    URL-encoded query string with exactly the keys [path], [apikey],
    [limit=1000] and [col_names=true], the two values escaped with colon and
    percent sign kept, followed by [&token=] and the token, verbatim, if and
    only if the request body carries a truthy [resume]: a token that is
    present but empty or null is not appended. *)
Theorem C3_payload_keys_and_token (req : HttpRequest) (payload : string) :
  result (set_payload py_repr req) = Value (inr payload) →
  ∃ d iz_analysis apikey,
    get_json req = Some (PyDict d)
    ∧ (∃ iz analysis, IzAnalysisByPair iz analysis (Some iz_analysis)
                        ∈ trace (set_payload py_repr req))
    ∧ (∃ area iz, ApiKeyByAreaIz area iz false (Some apikey)
                    ∈ trace (set_payload py_repr req))
    ∧ let path := iz_analysis_path iz_analysis in
      let key := apikey_apikey apikey in
      let resume := default PyNone (d !! "resume") in
      payload = base_query path key +:+
                (if truthy resume then "&token=" +:+ py_format py_repr resume
                 else "")
      ∧ urllib.pairs (base_query path key)
        = [("path", urllib.quote_plus path ":%");
           ("apikey", urllib.quote_plus key ":%");
           ("limit", "1000"); ("col_names", "true")]
      ∧ has_token payload = truthy resume
      ∧ ∀ c a b, c = ":"%char ∨ c = "%"%char →
          urllib.quote_plus (a +:+ String c b) ":%"
          = urllib.quote_plus a ":%" +:+ String c (urllib.quote_plus b ":%").
Proof.
  intros Hr.
  destruct (get_json req) as [v|] eqn:Hreq.
  2: { by rewrite set_payload_invalid_json in Hr. }
  destruct v as [| | | | | |d];
    try (by rewrite (set_payload_not_object py_repr req _ Hreq) in Hr).
  revert Hr.
  destruct (set_payload_resolution py_repr req d Hreq)
    as [| | | | | |area iz analysis iz_analysis apikey _ _ _ _ _ _]; try done.
  intros [= <-].
  exists d, iz_analysis, apikey; cbn [trace fst].
  split; [done|]. split; [exists iz, analysis; set_solver|].
  split; [exists (area_id area), (iz_id iz); set_solver|].
  cbn zeta; unfold build_payload; rewrite UrlFacts.urlencode_base.
  destruct (truthy (default PyNone (d !! "resume"))).
  - repeat split.
    + apply UrlFacts.pairs_base.
    + apply UrlFacts.has_token_appended.
    + apply UrlFacts.quote_plus_keeps.
  - rewrite StrFacts.app_nil_r; repeat split.
    + apply UrlFacts.pairs_base.
    + apply UrlFacts.has_token_base.
    + apply UrlFacts.quote_plus_keeps.
Qed.

(** C8, as the code has it.  The fifth lookup (the read-only credential)
    takes the id of the area the first lookup returned and the id of the
    organization the second lookup returned, with the write flag off; the
    fourth lookup (the report path) takes the records the second and the
    third lookup returned. *)
Theorem C8_lookup_inputs (req : HttpRequest) :
  (∀ a i w, api_key_inputs (trace (set_payload py_repr req)) = Some (a, i, w) →
     ∃ area iz,
       area_result (trace (set_payload py_repr req)) = Some (Some area)
       ∧ iz_result (trace (set_payload py_repr req)) = Some (Some iz)
       ∧ a = area_id area ∧ i = iz_id iz ∧ w = false)
  ∧ (∀ iz analysis,
       iz_analysis_inputs (trace (set_payload py_repr req)) = Some (iz, analysis) →
       iz_result (trace (set_payload py_repr req)) = Some (Some iz)
       ∧ analysis_result (trace (set_payload py_repr req)) = Some (Some analysis)).
Proof.
  destruct (get_json req) as [v|] eqn:Hreq.
  2: { by rewrite set_payload_invalid_json. }
  destruct v as [| | | | | |d];
    try (by rewrite (set_payload_not_object py_repr req _ Hreq)).
  destruct (set_payload_resolution py_repr req d Hreq); cbn;
    (split; [intros a i w Hin | intros i an Hin]); simplify_eq; eauto 10.
Qed.

End Resolved.

Lemma C3_payload_keys_and_token_witness :
  ∃ d iz_analysis apikey,
    get_json (Sample.loans_with (PyStr "abc")) = Some (PyDict d)
    ∧ (∃ iz analysis, IzAnalysisByPair iz analysis (Some iz_analysis)
         ∈ trace (set_payload (store := Sample.store 7) Sample.repr
                    (Sample.loans_with (PyStr "abc"))))
    ∧ (∃ area iz, ApiKeyByAreaIz area iz false (Some apikey)
         ∈ trace (set_payload (store := Sample.store 7) Sample.repr
                    (Sample.loans_with (PyStr "abc"))))
    ∧ let path := iz_analysis_path iz_analysis in
      let key := apikey_apikey apikey in
      let resume := default PyNone (d !! "resume") in
      "path=%2Fshared%2FFoo+Bar:x%2F%2Floans&apikey=l8xx%26%3Dk&limit=1000&col_names=true&token=abc"
      = base_query path key +:+
        (if truthy resume then "&token=" +:+ py_format Sample.repr resume else "")
      ∧ urllib.pairs (base_query path key)
        = [("path", urllib.quote_plus path ":%");
           ("apikey", urllib.quote_plus key ":%");
           ("limit", "1000"); ("col_names", "true")]
      ∧ has_token
          "path=%2Fshared%2FFoo+Bar:x%2F%2Floans&apikey=l8xx%26%3Dk&limit=1000&col_names=true&token=abc"
        = truthy resume
      ∧ ∀ c a b, c = ":"%char ∨ c = "%"%char →
          urllib.quote_plus (a +:+ String c b) ":%"
          = urllib.quote_plus a ":%" +:+ String c (urllib.quote_plus b ":%").
Proof.
  apply (C3_payload_keys_and_token (store := Sample.store 7)).
  vm_compute; reflexivity.
Defined.

(** C3 as stated fails: the body below carries a [resume] key, and the
    payload has no [token] key. *)
Lemma C3_present_token_not_appended :
  get_json (Sample.loans_with (PyStr ""))
  = Some (PyDict (list_to_map [("iz", PyStr "scf"); ("analysis", PyStr "loans");
                               ("resume", PyStr "")]))
  ∧ result (py_in "resume"
              (PyDict (list_to_map [("iz", PyStr "scf"); ("analysis", PyStr "loans");
                                    ("resume", PyStr "")])))
    = Value true
  ∧ result (set_payload (store := Sample.store 7) Sample.repr
              (Sample.loans_with (PyStr "")))
    = Value (inr "path=%2Fshared%2FFoo+Bar:x%2F%2Floans&apikey=l8xx%26%3Dk&limit=1000&col_names=true")
  ∧ has_token
      "path=%2Fshared%2FFoo+Bar:x%2F%2Floans&apikey=l8xx%26%3Dk&limit=1000&col_names=true"
    = false.
Proof. repeat split; vm_compute; reflexivity. Qed.

Lemma C8_lookup_inputs_witness :
  ∃ area iz,
    area_result (trace (set_payload (store := Sample.store 7) Sample.repr Sample.loans))
    = Some (Some area)
    ∧ iz_result (trace (set_payload (store := Sample.store 7) Sample.repr Sample.loans))
      = Some (Some iz)
    ∧ 1 = area_id area ∧ 7 = iz_id iz ∧ false = false.
Proof.
  apply (proj1 (C8_lookup_inputs (store := Sample.store 7) Sample.repr Sample.loans)).
  vm_compute; reflexivity.
Defined.

(** C8 as stated fails: two stores that return the same area and the same
    analysis, and differ in the organization of the second lookup, get
    different inputs to the fifth lookup. *)
Lemma C8_fifth_lookup_follows_second :
  area_result (trace (set_payload (store := Sample.store 7) Sample.repr Sample.loans))
  = area_result (trace (set_payload (store := Sample.store 8) Sample.repr Sample.loans))
  ∧ analysis_result (trace (set_payload (store := Sample.store 7) Sample.repr Sample.loans))
    = analysis_result (trace (set_payload (store := Sample.store 8) Sample.repr Sample.loans))
  ∧ iz_result (trace (set_payload (store := Sample.store 7) Sample.repr Sample.loans))
    = Some (Some (Sample.scf 7))
  ∧ iz_result (trace (set_payload (store := Sample.store 8) Sample.repr Sample.loans))
    = Some (Some (Sample.scf 8))
  ∧ api_key_inputs (trace (set_payload (store := Sample.store 7) Sample.repr Sample.loans))
    = Some (1, 7, false)
  ∧ api_key_inputs (trace (set_payload (store := Sample.store 8) Sample.repr Sample.loans))
    = Some (1, 8, false).
Proof. repeat split; vm_compute; reflexivity. Qed.

(** ** Columns and rows *)

Lemma is_column0_false (kid : node) :
  is_column0 kid = false ↔ bs4.name kid ≠ "Column0".
Proof. unfold is_column0; apply String.eqb_neq. Qed.

(** A name that no later declaration carries keeps its header. *)
Lemma fold_columns_keeps (nm : string) (l : list node) (columns : gmap string string) :
  (∀ c, c ∈ l → bs4.attrs c !! "name" ≠ Some nm) →
  fold_left add_column l columns !! nm = columns !! nm.
Proof.
  revert columns; induction l as [|c l IH]; intros columns Hl; [done|].
  cbn [fold_left]; rewrite IH.
  - unfold add_column, declared.
    pose proof (Hl c (list_elem_of_here _ _)) as Hc.
    destruct (bs4.attrs c !! "name") as [n|]; cbn; [|done].
    destruct (bs4.attrs c !! "saw-sql:columnHeading") as [h|]; cbn; [|done].
    apply lookup_insert_ne; congruence.
  - intros c' Hc'; apply Hl; by apply list_elem_of_further.
Qed.

(** C4, as the code has it.  When column extraction produces a column map,
    the last declaration that carries a given [name] attribute decides that
    name's header: the literal "Provenance Code" when its
    [saw-sql:columnHeading] contains "CASE  WHEN Provenance Code", its
    heading unchanged otherwise.  (An earlier declaration with the same name
    is overwritten.) *)
Theorem C4_last_declaration_sets_header (soup : soup) (columns : gmap string string)
    (before after : list node) (decl : node) (nm heading : string) :
  result (get_columns soup) = Value (inr columns) →
  bs4.find_all "xsd:element" soup = before ++ decl :: after →
  declared decl = Some (nm, heading) →
  (∀ later, later ∈ after → bs4.attrs later !! "name" ≠ Some nm) →
  (Str.Substring "CASE  WHEN Provenance Code" heading →
     columns !! nm = Some "Provenance Code")
  ∧ (¬ Str.Substring "CASE  WHEN Provenance Code" heading →
     columns !! nm = Some heading).
Proof.
  intros [_ ->]%get_columns_value Hl Hdecl Hafter.
  assert (Hnm : fold_left add_column (bs4.find_all "xsd:element" soup) ∅ !! nm
                = Some (normalized heading)).
  { rewrite Hl, fold_left_app; cbn [fold_left].
    rewrite fold_columns_keeps by done.
    unfold add_column at 1; rewrite Hdecl; apply lookup_insert_eq. }
  rewrite Hnm; unfold normalized.
  destruct (Str.contains _ heading) eqn:Hc.
  - split; [done|]. intros Hn; destruct Hn; by apply StrFacts.contains_spec.
  - split; [|done]. intros Hs%StrFacts.contains_spec; congruence.
Qed.

Lemma C4_last_declaration_sets_header_witness :
  (Str.Substring "CASE  WHEN Provenance Code" "CASE  WHEN Provenance Code = 1 THEN 2 END" →
     (<["Column2" := "Title"]> (<["Column1" := "Provenance Code"]> ∅) : gmap string string)
       !! "Column1" = Some "Provenance Code")
  ∧ (¬ Str.Substring "CASE  WHEN Provenance Code" "CASE  WHEN Provenance Code = 1 THEN 2 END" →
     (<["Column2" := "Title"]> (<["Column1" := "Provenance Code"]> ∅) : gmap string string)
       !! "Column1" = Some "CASE  WHEN Provenance Code = 1 THEN 2 END").
Proof.
  apply (C4_last_declaration_sets_header Sample.provenance _ []
           [Sample.column "Column2" "Title"]
           (Sample.column "Column1" "CASE  WHEN Provenance Code = 1 THEN 2 END")).
  - vm_compute; reflexivity.
  - vm_compute; reflexivity.
  - vm_compute; reflexivity.
  - intros later [<- | []]%list_elem_of_In; vm_compute; discriminate.
Defined.

(** C4 as stated fails: the first declaration below has a provenance
    heading, and the column map gives its name the header of the second. *)
Lemma C4_earlier_declaration_overwritten :
  bs4.find_all "xsd:element" Sample.twice_declared
  = [Sample.column "Column1" "CASE  WHEN Provenance Code = 1 THEN 2 END";
     Sample.column "Column1" "Title"]
  ∧ Str.contains "CASE  WHEN Provenance Code"
      "CASE  WHEN Provenance Code = 1 THEN 2 END" = true
  ∧ ∃ columns,
      get_columns Sample.twice_declared = ([], Value (inr columns))
      ∧ columns !! "Column1" = Some "Title".
Proof.
  split; [vm_compute; reflexivity|]. split; [vm_compute; reflexivity|].
  eexists; split; vm_compute; reflexivity.
Qed.

(** C5.  In the mapping of every [Row], nothing comes from a [Column0]:
    the mapping is the one of the row with its [Column0] cells removed, and
    each of its entries is the text of a cell that is not a [Column0], under
    that cell's header.  Every other cell, and so every other child of the
    row, has its header in the mapping; the header is the column map's entry
    for the cell's tag, and the tag itself when the map has none. *)
Theorem C5_rows_omit_Column0 (soup : soup) (columns : gmap string string)
    (rows : list row) :
  result (get_rows soup columns) = Value (inr rows) →
  rows = map (get_row columns) (bs4.find_all "Row" soup)
  ∧ ∀ r, r ∈ bs4.find_all "Row" soup →
      get_row columns r = row_of_cells columns (bs4.findChildren r)
      ∧ get_row columns r
        = row_of_cells columns
            (List.filter (λ kid, negb (is_column0 kid)) (bs4.findChildren r))
      ∧ (∀ key v, get_row columns r !! key = Some v →
           ∃ kid, kid ∈ bs4.findChildren r ∧ bs4.name kid ≠ "Column0"
                  ∧ header_of columns (bs4.name kid) = key ∧ bs4.text kid = v)
      ∧ (∀ kid, kid ∈ bs4.findChildren r → bs4.name kid ≠ "Column0" →
           is_Some (get_row columns r !! header_of columns (bs4.name kid)))
      ∧ (∀ tag a cs, Tag tag a cs ∈ bs4.contents r → tag ≠ "Column0" →
           is_Some (get_row columns r !! header_of columns tag)).
Proof.
  intros Hrows; split.
  - destruct (decide (bs4.find_all "Row" soup = [])) as [Hl | Hl].
    + by rewrite get_rows_none in Hrows.
    + rewrite get_rows_some in Hrows by done; by injection Hrows.
  - intros r _; unfold get_row; repeat split.
    + apply fold_rows_cells.
    + by rewrite row_of_cells_drops_column0, fold_rows_cells.
    + intros key v [Hv | (kid & Hin & Hk & Hkey & Htext)]%fold_rows_origin; [done|].
      exists kid; by rewrite <- is_column0_false.
    + intros kid Hin Hk; apply fold_rows_covers; [done | by apply is_column0_false].
    + intros tag a cs Hin Hk.
      apply (fold_rows_covers columns _ _ (Tag tag a cs)).
      * by eapply Bs4Facts.child_in_findChildren.
      * by apply is_column0_false.
Qed.

(** C9.  Among the cells of a [Row] (the nodes [findChildren()] returns,
    in document order; the row's child tags when the cells hold character
    data only, [Bs4Facts.findChildren_flat]), the last one filed under a
    header is the one whose text the row mapping holds for that header; what
    earlier cells with the same header wrote is gone. *)
Theorem C9_last_cell_wins (columns : gmap string string) (r : node)
    (before after : list node) (kid : node) :
  bs4.findChildren r = before ++ kid :: after →
  bs4.name kid ≠ "Column0" →
  (∀ later, later ∈ after → bs4.name later ≠ "Column0" →
     header_of columns (bs4.name later) ≠ header_of columns (bs4.name kid)) →
  get_row columns r !! header_of columns (bs4.name kid) = Some (bs4.text kid).
Proof.
  intros Hkids Hkid%is_column0_false Hafter; unfold get_row.
  rewrite Hkids, fold_left_app; cbn [fold_left].
  rewrite fold_rows_keeps.
  - rewrite get_rows_step_insert, Hkid; apply lookup_insert_eq.
  - intros later Hin Hl; apply Hafter; [done | by apply is_column0_false].
Qed.

Lemma C5_rows_omit_Column0_witness :
  [<["Title" := "Foo"]> ∅] = map (get_row Sample.titles) (bs4.find_all "Row" Sample.report)
  ∧ ∀ r, r ∈ bs4.find_all "Row" Sample.report →
      get_row Sample.titles r = row_of_cells Sample.titles (bs4.findChildren r)
      ∧ get_row Sample.titles r
        = row_of_cells Sample.titles
            (List.filter (λ kid, negb (is_column0 kid)) (bs4.findChildren r))
      ∧ (∀ key v, get_row Sample.titles r !! key = Some v →
           ∃ kid, kid ∈ bs4.findChildren r ∧ bs4.name kid ≠ "Column0"
                  ∧ header_of Sample.titles (bs4.name kid) = key ∧ bs4.text kid = v)
      ∧ (∀ kid, kid ∈ bs4.findChildren r → bs4.name kid ≠ "Column0" →
           is_Some (get_row Sample.titles r !! header_of Sample.titles (bs4.name kid)))
      ∧ (∀ tag a cs, Tag tag a cs ∈ bs4.contents r → tag ≠ "Column0" →
           is_Some (get_row Sample.titles r !! header_of Sample.titles tag)).
Proof.
  apply (C5_rows_omit_Column0 Sample.report Sample.titles).
  vm_compute; reflexivity.
Defined.

Lemma C9_last_cell_wins_witness :
  get_row Sample.both_provenance Sample.same_header !! "Provenance Code" = Some "new".
Proof.
  apply (C9_last_cell_wins Sample.both_provenance Sample.same_header
           [Sample.cell "Column0" "0"; Sample.cell "Column1" "old"] []
           (Sample.cell "Column2" "new")).
  - vm_compute; reflexivity.
  - vm_compute; discriminate.
  - intros later []%list_elem_of_In.
Defined.

(** ** The remote document *)

Section Documents.

Context {store : ConfigStore}.
Variable py_repr : pyval → string.
Variable requests_get : string → string → Z → string + string.
Variable BeautifulSoup : string → string → soup.

(** The handler on a request that resolved to [payload] and whose remote
    call returned [content]: the call, then whatever parsing and extraction
    do. *)
Lemma respond_content (payload content : string) :
  requests_get url payload 600 = inr content →
  respond requests_get BeautifulSoup payload
  = (emit (HttpGet url payload 600);;
     soup ← get_soup BeautifulSoup content;
     match soup with
     | inl resp => mret resp
     | inr soup =>
         columns ← get_columns soup;
         match columns with
         | inl resp => mret resp
         | inr columns =>
             rows ← get_rows soup columns;
             match rows with
             | inl resp => mret resp
             | inr rows =>
                 mret {| resp_body :=
                           JsonDumps (bs4.text <$> bs4.find "ResumptionToken" soup) rows;
                         status_code := 200;
                         mimetype := Some "application/json" |}
             end
         end
     end).
Proof. unfold respond, make_api_call; by intros ->. Qed.

(** C6, as the code has it.  For a parsed document with no [error]
    element: without any [xsd:element] declaration the handler returns 404
    "No columns found"; with at least one declaration, each carrying a
    [name] and a [saw-sql:columnHeading] attribute, and without any [Row],
    it returns 404 "No rows found". *)
Theorem C6_no_columns_no_rows (req : HttpRequest) (payload content : string) :
  result (set_payload py_repr req) = Value (inr payload) →
  requests_get url payload 600 = inr content →
  bs4.find "error" (BeautifulSoup content "xml") = None →
  (bs4.find_all "xsd:element" (BeautifulSoup content "xml") = [] →
     result (httpalmaanalytics py_repr requests_get BeautifulSoup req)
     = Value (plain "No columns found" 404))
  ∧ (bs4.find_all "xsd:element" (BeautifulSoup content "xml") ≠ [] →
     Forall (λ c, is_Some (declared c))
       (bs4.find_all "xsd:element" (BeautifulSoup content "xml")) →
     bs4.find_all "Row" (BeautifulSoup content "xml") = [] →
     result (httpalmaanalytics py_repr requests_get BeautifulSoup req)
     = Value (plain "No rows found" 404)).
Proof.
  intros Hp Hget Herr.
  rewrite (handler_respond _ _ _ _ _ Hp), (respond_content _ _ Hget).
  rewrite (get_soup_ok _ _ Herr); split.
  - intros Hcols; cbn -[get_columns]; by rewrite get_columns_none.
  - intros Hcols Hdecl Hrows; cbn -[get_columns get_rows].
    rewrite get_columns_declared by done; cbn -[get_rows].
    by rewrite get_rows_none.
Qed.

(** C7, as the code has it.  When the returned document contains [error]
    elements, the handler returns status 500 with the body "Error: "
    followed by the text of the first of them in document order, and it
    returns right after the error is logged: nothing is extracted from the
    document. *)
Theorem C7_first_error_is_surfaced (req : HttpRequest) (payload content : string)
    (e : node) (others : list node) :
  result (set_payload py_repr req) = Value (inr payload) →
  requests_get url payload 600 = inr content →
  bs4.find_all "error" (BeautifulSoup content "xml") = e :: others →
  httpalmaanalytics py_repr requests_get BeautifulSoup req
  = (trace (set_payload py_repr req)
       ++ [HttpGet url payload 600; Log "Error: %s" [PyStr (bs4.text e)]],
     Value (plain ("Error: " +:+ bs4.text e) 500))
  ∧ Str.Substring (bs4.text e) ("Error: " +:+ bs4.text e)
  ∧ result (get_soup BeautifulSoup content)
    = Value (inl (plain ("Error: " +:+ bs4.text e) 500)).
Proof.
  intros Hp Hget Herr.
  assert (He : bs4.find "error" (BeautifulSoup content "xml") = Some e)
    by (apply Bs4Facts.find_first; by eauto).
  rewrite (handler_respond _ _ _ _ _ Hp), (respond_content _ _ Hget).
  rewrite (get_soup_error _ _ _ He); repeat split.
  exists "Error: ", ""; by rewrite StrFacts.app_nil_r.
Qed.

(** C10.  The claim asks for 404 "Empty or invalid XML response" when
    the body parses to an empty document.  [get_soup] tests [not soup], and
    a BeautifulSoup object is truthy whatever it contains, so the branch is
    never taken: [get_soup] answers with the status 500 of the error check
    or hands the document on, and the empty document ends as 404 "No columns
    found". *)
Theorem C10_empty_document_no_columns (req : HttpRequest) (payload content : string) :
  result (set_payload py_repr req) = Value (inr payload) →
  requests_get url payload 600 = inr content →
  BeautifulSoup content "xml" = [] →
  get_soup BeautifulSoup content = ([], Value (inr []))
  ∧ httpalmaanalytics py_repr requests_get BeautifulSoup req
    = (trace (set_payload py_repr req)
         ++ [HttpGet url payload 600; Log "No columns found" []],
       Value (plain "No columns found" 404))
  ∧ ∀ body resp,
      result (get_soup BeautifulSoup body) = Value (inl resp) →
      status_code resp = 500.
Proof.
  intros Hp Hget Hdoc.
  assert (Hsoup : get_soup BeautifulSoup content = ([], Value (inr [])))
    by (unfold get_soup; by rewrite Hdoc).
  split; [done|]. split.
  - rewrite (handler_respond _ _ _ _ _ Hp), (respond_content _ _ Hget).
    by rewrite Hsoup.
  - intros body resp; unfold get_soup; cbn.
    destruct (bs4.find "error" (BeautifulSoup body "xml")); [|done].
    by intros [= <-].
Qed.

End Documents.

Lemma C6_no_columns_no_rows_witness :
  result (Sample.run [] Sample.loans) = Value (plain "No columns found" 404)
  ∧ result (Sample.run Sample.no_rows Sample.loans) = Value (plain "No rows found" 404).
Proof.
  unfold Sample.run; split.
  - apply (C6_no_columns_no_rows (store := Sample.store 7) Sample.repr Sample.remote
             (Sample.parser []) Sample.loans
             "path=%2Fshared%2FFoo+Bar:x%2F%2Floans&apikey=l8xx%26%3Dk&limit=1000&col_names=true"
             "<QueryResult/>");
      vm_compute; reflexivity.
  - apply (C6_no_columns_no_rows (store := Sample.store 7) Sample.repr Sample.remote
             (Sample.parser Sample.no_rows) Sample.loans
             "path=%2Fshared%2FFoo+Bar:x%2F%2Floans&apikey=l8xx%26%3Dk&limit=1000&col_names=true"
             "<QueryResult/>").
    + vm_compute; reflexivity.
    + vm_compute; reflexivity.
    + vm_compute; reflexivity.
    + vm_compute; discriminate.
    + repeat constructor; vm_compute; by eexists.
    + vm_compute; reflexivity.
Defined.

(** C6 as stated fails: the document below has no [error] element, one
    [xsd:element] declaration and no [Row], and the handler raises instead of
    answering 404 "No rows found". *)
Lemma C6_declaration_without_heading_raises :
  bs4.find "error" Sample.no_heading = None
  ∧ bs4.find_all "xsd:element" Sample.no_heading
    = [Tag "xsd:element" (<["name" := "Column1"]> ∅) []]
  ∧ bs4.find_all "Row" Sample.no_heading = []
  ∧ result (Sample.run Sample.no_heading Sample.loans)
    = Raised (KeyError "saw-sql:columnHeading").
Proof. repeat split; vm_compute; reflexivity. Qed.

Lemma C7_first_error_is_surfaced_witness :
  Sample.run Sample.two_errors Sample.loans
  = (trace (set_payload (store := Sample.store 7) Sample.repr Sample.loans)
       ++ [HttpGet url
             "path=%2Fshared%2FFoo+Bar:x%2F%2Floans&apikey=l8xx%26%3Dk&limit=1000&col_names=true"
             600;
           Log "Error: %s" [PyStr (bs4.text (Sample.cell "error" "first"))]],
     Value (plain ("Error: " +:+ bs4.text (Sample.cell "error" "first")) 500))
  ∧ Str.Substring (bs4.text (Sample.cell "error" "first"))
      ("Error: " +:+ bs4.text (Sample.cell "error" "first"))
  ∧ result (get_soup (Sample.parser Sample.two_errors) "<QueryResult/>")
    = Value (inl (plain ("Error: " +:+ bs4.text (Sample.cell "error" "first")) 500)).
Proof.
  apply (C7_first_error_is_surfaced (store := Sample.store 7) Sample.repr Sample.remote
           (Sample.parser Sample.two_errors) Sample.loans
           "path=%2Fshared%2FFoo+Bar:x%2F%2Floans&apikey=l8xx%26%3Dk&limit=1000&col_names=true"
           "<QueryResult/>" (Sample.cell "error" "first") [Sample.cell "error" "second"]);
    vm_compute; reflexivity.
Defined.

(** C7 as stated fails: the document below contains an [error] element
    with text "second", and the body of the 500 response does not contain
    it. *)
Lemma C7_second_error_not_in_body :
  bs4.find_all "error" Sample.two_errors
  = [Sample.cell "error" "first"; Sample.cell "error" "second"]
  ∧ bs4.text (Sample.cell "error" "second") = "second"
  ∧ result (Sample.run Sample.two_errors Sample.loans) = Value (plain "Error: first" 500)
  ∧ Str.contains "second" "Error: first" = false.
Proof. repeat split; vm_compute; reflexivity. Qed.

Lemma C10_empty_document_no_columns_witness :
  get_soup (Sample.parser []) "<QueryResult/>" = ([], Value (inr []))
  ∧ Sample.run [] Sample.loans
    = (trace (set_payload (store := Sample.store 7) Sample.repr Sample.loans)
         ++ [HttpGet url
               "path=%2Fshared%2FFoo+Bar:x%2F%2Floans&apikey=l8xx%26%3Dk&limit=1000&col_names=true"
               600;
             Log "No columns found" []],
       Value (plain "No columns found" 404))
  ∧ ∀ body resp,
      result (get_soup (Sample.parser []) body) = Value (inl resp) →
      status_code resp = 500.
Proof.
  apply (C10_empty_document_no_columns (store := Sample.store 7) Sample.repr
           Sample.remote (Sample.parser []) Sample.loans
           "path=%2Fshared%2FFoo+Bar:x%2F%2Floans&apikey=l8xx%26%3Dk&limit=1000&col_names=true"
           "<QueryResult/>");
    vm_compute; reflexivity.
Defined.


(** * Further properties of the handler *)

(** ** How the pipeline ends *)

Lemma get_columns_step_missing (columns : gmap string string) (column : node) :
  declared column = None →
  get_columns_step columns column = ([], Raised (missing_attribute column)).
Proof.
  unfold declared, get_columns_step, missing_attribute.
  destruct column as [tag a cs| |]; cbn; [|done..].
  destruct (a !! "saw-sql:columnHeading") as [h|] eqn:Hh; cbn; [|done].
  by destruct (a !! "name") as [n|] eqn:Hn.
Qed.

(** The loop of [get_columns], in one equation: it stops at the first
    declaration without both attributes, and builds the map otherwise. *)
Lemma for_each_columns_result (l : list node) (acc : gmap string string) :
  result (for_each get_columns_step l acc)
  = match List.find undeclared l with
    | Some column => Raised (missing_attribute column)
    | None => Value (fold_left add_column l acc)
    end.
Proof.
  revert acc; induction l as [|c l IH]; intros acc; [done|].
  cbn [for_each List.find fold_left]; unfold undeclared at 1, add_column at 2.
  destruct (declared c) as [[nm h]|] eqn:Hc.
  - rewrite (get_columns_step_declared _ _ _ _ Hc), bind_value; apply IH.
  - by rewrite (get_columns_step_missing _ _ Hc).
Qed.

Lemma find_undeclared_none (l : list node) :
  List.find undeclared l = None ↔ Forall (λ c, is_Some (declared c)) l.
Proof.
  induction l as [|c l IH]; cbn; [by split; [constructor|]|].
  unfold undeclared at 1; destruct (declared c) as [p|] eqn:Hc.
  - rewrite IH; split; [intros Hl; constructor; [by rewrite Hc | done]|].
    by inversion 1.
  - split; [done|]. inversion 1 as [|? ? [? Hs]]; congruence.
Qed.

Lemma find_undeclared_some (l : list node) (c : node) :
  List.find undeclared l = Some c → l ≠ [].
Proof. by destruct l. Qed.

Section Runs.

Context {store : ConfigStore}.
Variable py_repr : pyval → string.
Variable requests_get : string → string → Z → string + string.
Variable BeautifulSoup : string → string → soup.

(** From the remote call on, the handler ends in one of the six ways of
    [answer]. *)
Lemma respond_answer (payload : string) :
  answer requests_get BeautifulSoup payload
    (respond requests_get BeautifulSoup payload).
Proof.
  destruct (requests_get url payload 600) as [e | content] eqn:Hget.
  { unfold respond, make_api_call; rewrite Hget; by apply ans_call_failed. }
  rewrite (respond_content _ _ _ _ Hget).
  destruct (bs4.find "error" (BeautifulSoup content "xml")) as [e|] eqn:He.
  { rewrite (get_soup_error _ _ _ He); by eapply ans_error. }
  rewrite (get_soup_ok _ _ He); cbn -[get_columns get_rows].
  set (soup := BeautifulSoup content "xml") in *.
  destruct (decide (bs4.find_all "xsd:element" soup = [])) as [Hc | Hc].
  { rewrite get_columns_none by done; by eapply ans_no_columns. }
  rewrite get_columns_some by done; rewrite for_each_columns_result.
  destruct (List.find undeclared (bs4.find_all "xsd:element" soup)) as [c|] eqn:Hu.
  { by eapply ans_raised. }
  cbn -[get_rows].
  destruct (decide (bs4.find_all "Row" soup = [])) as [Hr | Hr].
  - rewrite get_rows_none by done; by eapply ans_no_rows.
  - rewrite get_rows_some by done; by eapply ans_success.
Qed.

(** Every run of the handler: the body is not JSON, or not an object, or
    [set_payload] answers itself, or it returns a payload and the rest is an
    [answer]. *)
Lemma handler_run (req : HttpRequest) :
  (get_json req = None
   ∧ httpalmaanalytics py_repr requests_get BeautifulSoup req
     = ([Log "Invalid JSON in request body" []],
        Value (plain "Invalid JSON in request body" 400)))
  ∨ (∃ v, get_json req = Some v ∧ (∀ d, v ≠ PyDict d)
       ∧ httpalmaanalytics py_repr requests_get BeautifulSoup req
         = ([], Raised (AttributeError "get")))
  ∨ (∃ d t resp,
       get_json req = Some (PyDict d)
       ∧ set_payload py_repr req = (t, Value (inl resp))
       ∧ resolution py_repr d (t, Value (inl resp))
       ∧ httpalmaanalytics py_repr requests_get BeautifulSoup req = (t, Value resp))
  ∨ (∃ d t payload m,
       get_json req = Some (PyDict d)
       ∧ set_payload py_repr req = (t, Value (inr payload))
       ∧ resolution py_repr d (t, Value (inr payload))
       ∧ answer requests_get BeautifulSoup payload m
       ∧ httpalmaanalytics py_repr requests_get BeautifulSoup req
         = (t ++ trace m, result m)).
Proof.
  destruct (get_json req) as [v|] eqn:Hreq.
  2: { left; split; [done|].
       pose proof (set_payload_invalid_json py_repr req Hreq) as Hsp.
       rewrite (handler_early _ _ _ _ (plain "Invalid JSON in request body" 400));
         by rewrite Hsp. }
  right.
  destruct (match v with PyDict _ => true | _ => false end) eqn:Hv.
  2: { left; exists v.
       assert (Hnd : ∀ d, v ≠ PyDict d) by (intros d ->; done).
       split; [done|]. split; [done|].
       pose proof (set_payload_not_object py_repr req v Hreq Hnd) as Hsp.
       rewrite (handler_raised _ _ _ _ (AttributeError "get")); by rewrite Hsp. }
  right; destruct v as [| | | | | |d]; try done.
  pose proof (set_payload_resolution py_repr req d Hreq) as Hres.
  destruct (set_payload py_repr req) as [t [[resp | payload] | e]] eqn:Hsp.
  - left; exists d, t, resp; repeat split; try done.
    rewrite (handler_early _ _ _ _ resp); by rewrite Hsp.
  - right; exists d, t, payload, (respond requests_get BeautifulSoup payload).
    repeat split; try done; [apply respond_answer|].
    rewrite (handler_respond _ _ _ _ payload); by rewrite Hsp.
  - inversion Hres.
Qed.

End Runs.

(** A query of the document returns tags only. *)
Lemma tags_are_tags (n x : node) : x ∈ bs4.tags n → bs4.is_tag x = true.
Proof.
  revert n x; fix IH 1; intros [nm a cs| |] x; cbn; [|by inversion 1..].
  intros [<- | Hx]%list_elem_of_In; [done|].
  induction cs as [|c cs IHcs]; cbn in Hx; [done|].
  apply in_app_or in Hx as [Hx | Hx]; [|by apply IHcs].
  apply (IH c); by apply list_elem_of_In.
Qed.

Lemma find_all_is_tag (nm : string) (cs : list node) (x : node) :
  x ∈ bs4.find_all nm cs → bs4.is_tag x = true.
Proof.
  intros [_ Hx]%Bs4Facts.find_all_tags; unfold bs4.descendants in Hx.
  apply list_elem_of_In, in_flat_map in Hx as (n & _ & Hx).
  by apply (tags_are_tags n), list_elem_of_In.
Qed.



Section Outcomes.

Context {store : ConfigStore}.
Variable py_repr : pyval → string.
Variable requests_get : string → string → Z → string + string.
Variable BeautifulSoup : string → string → soup.

Ltac runs req :=
  destruct (handler_run py_repr requests_get BeautifulSoup req)
    as [[Hreq Hrun]
       | [(v & Hreq & Hv & Hrun)
         | [(d & t & resp' & Hreq & Hsp & Hres & Hrun)
           | (d & t & payload' & m & Hreq & Hsp & Hres & Hans & Hrun)]]];
  rewrite ?Hrun, ?Hsp.

(** X1.  The handler answers 400 exactly when the body is not JSON or is
    a JSON object in which [iz] or [analysis] is missing or falsy; a 400
    response comes with one log record and nothing else: no lookup, no
    call. *)
Theorem X1_status_400 (req : HttpRequest) (resp : HttpResponse) :
  result (httpalmaanalytics py_repr requests_get BeautifulSoup req) = Value resp →
  (status_code resp = 400
   ↔ get_json req = None
     ∨ ∃ d, get_json req = Some (PyDict d) ∧ required_fields d = false)
  ∧ (status_code resp = 400 →
     ∃ msg, trace (httpalmaanalytics py_repr requests_get BeautifulSoup req)
            = [Log msg []]).
Proof.
  runs req; cbn [trace result fst snd].
  - intros [= <-]; split; [by split; [left|] | by eexists].
  - done.
  - assert (Hbad : (get_json req = None
                    ∨ ∃ d', get_json req = Some (PyDict d') ∧ required_fields d' = false)
                   ↔ required_fields d = false).
    { split; [intros [? | (d' & ? & ?)]; congruence | intros; right; by eauto]. }
    rewrite Hbad; intros [= ->].
    inversion Hres; subst; cbn;
      (split; [split; intros; (done || congruence) | intros; done || by eexists]).
  - assert (Hbad : (get_json req = None
                    ∨ ∃ d', get_json req = Some (PyDict d') ∧ required_fields d' = false)
                   ↔ required_fields d = false).
    { split; [intros [? | (d' & ? & ?)]; congruence | intros; right; by eauto]. }
    rewrite Hbad; inversion Hres; subst.
    destruct Hans; cbn; intros ?; simplify_eq; cbn;
      (split; [split; intros; (done || congruence) | intros; done]).
Qed.

(** X5.  A response of the handler has status 200, 400, 404 or 500; it is
    JSON exactly when the status is 200, and a plain message otherwise. *)
Theorem X5_statuses (req : HttpRequest) (resp : HttpResponse) :
  result (httpalmaanalytics py_repr requests_get BeautifulSoup req) = Value resp →
  (status_code resp = 200 ∨ status_code resp = 400
   ∨ status_code resp = 404 ∨ status_code resp = 500)
  ∧ (status_code resp = 200 ↔ mimetype resp = Some "application/json")
  ∧ (status_code resp = 200 ↔ ∃ resume rows, resp_body resp = JsonDumps resume rows)
  ∧ (status_code resp ≠ 200 → ∃ msg, resp = plain msg (status_code resp)).
Proof.
  runs req; cbn [trace result fst snd].
  - intros [= <-]; cbn.
    repeat split; try done; try (by intros (? & ? & ?)); by eauto 6.
  - done.
  - intros [= ->]; inversion Hres; subst; cbn;
      (repeat split; try done; try (by intros (? & ? & ?)); by eauto 6).
  - destruct Hans; cbn; intros ?; simplify_eq; cbn;
      (repeat split; try done; try (by intros (? & ? & ?)); by eauto 6).
Qed.


(** X2.  When the remote call fails (transport error or a status that
    [raise_for_status] rejects), the handler answers 500 with "API call
    failed: " followed by the text of the exception; the call is its last
    step: nothing is logged and nothing is parsed. *)
Theorem X2_remote_failure (req : HttpRequest) (payload e : string) :
  result (set_payload py_repr req) = Value (inr payload) →
  requests_get url payload 600 = inl e →
  httpalmaanalytics py_repr requests_get BeautifulSoup req
  = (trace (set_payload py_repr req) ++ [HttpGet url payload 600],
     Value (plain ("API call failed: " +:+ e) 500))
  ∧ Str.Substring e ("API call failed: " +:+ e).
Proof.
  intros Hp Hget; split.
  - rewrite (handler_respond _ _ _ _ _ Hp).
    unfold respond, make_api_call; by rewrite Hget.
  - exists "API call failed: ", ""; by rewrite StrFacts.app_nil_r.
Qed.

(** X3.  The handler issues at most one GET: exactly one, to the fixed
    URL, with the payload of [set_payload] as parameters and a timeout of
    600 seconds, when [set_payload] returns a payload, and none otherwise.
    The call comes after every lookup, and only log records follow it. *)
Theorem X3_one_outbound_call (req : HttpRequest) :
  List.filter is_http_get
    (trace (httpalmaanalytics py_repr requests_get BeautifulSoup req))
  = match result (set_payload py_repr req) with
    | Value (inr payload) => [HttpGet url payload 600]
    | _ => []
    end
  ∧ ∀ payload, result (set_payload py_repr req) = Value (inr payload) →
      ∃ logs,
        trace (httpalmaanalytics py_repr requests_get BeautifulSoup req)
        = trace (set_payload py_repr req) ++ HttpGet url payload 600 :: logs
        ∧ forallb is_log logs = true.
Proof.
  runs req; cbn [trace result fst snd].
  - pose proof (set_payload_invalid_json py_repr req Hreq) as ->; by split.
  - rewrite (set_payload_not_object py_repr req v Hreq Hv); by split.
  - split; [|done]. inversion Hres; by subst.
  - split.
    + inversion Hres; subst; by destruct Hans.
    + intros payload [= <-]; destruct Hans; by eexists.
Qed.

(** X4.  The handler answers 200 exactly when the request resolves, the
    remote call succeeds, and the document has no [error] element, at least
    one declaration, every declaration with both attributes, and at least one
    [Row].  The body then holds one mapping per [Row], in document order,
    built with the column map of all declarations, and as [resume] the text
    of the first [ResumptionToken] element, or null when there is none. *)
Theorem X4_success (req : HttpRequest) (resp : HttpResponse) :
  result (httpalmaanalytics py_repr requests_get BeautifulSoup req) = Value resp
  ∧ status_code resp = 200
  ↔ ∃ payload content,
      result (set_payload py_repr req) = Value (inr payload)
      ∧ requests_get url payload 600 = inr content
      ∧ bs4.find "error" (BeautifulSoup content "xml") = None
      ∧ bs4.find_all "xsd:element" (BeautifulSoup content "xml") ≠ []
      ∧ Forall (λ c, is_Some (declared c))
          (bs4.find_all "xsd:element" (BeautifulSoup content "xml"))
      ∧ bs4.find_all "Row" (BeautifulSoup content "xml") ≠ []
      ∧ resp
        = {| resp_body :=
               JsonDumps
                 (bs4.text <$> bs4.find "ResumptionToken" (BeautifulSoup content "xml"))
                 (map (get_row
                         (fold_left add_column
                            (bs4.find_all "xsd:element" (BeautifulSoup content "xml")) ∅))
                    (bs4.find_all "Row" (BeautifulSoup content "xml")));
             status_code := 200;
             mimetype := Some "application/json" |}.
Proof.
  split.
  - runs req; cbn [trace result fst snd].
    + by intros [[= <-] ?].
    + by intros [? ?].
    + intros [[= ->] Hs]; inversion Hres; by subst.
    + destruct Hans as [| | | | |content Hget Herr Hc Hu Hr]; cbn;
        intros [? Hs]; simplify_eq; try done.
      exists payload', content; repeat split; try done.
      by apply find_undeclared_none.
  - intros (payload & content & Hp & Hget & Herr & Hc & Hd & Hr & ->).
    split; [|done].
    rewrite (handler_respond _ _ _ _ _ Hp), (respond_content _ _ _ _ Hget).
    rewrite (get_soup_ok _ _ Herr); cbn -[get_columns get_rows].
    rewrite get_columns_declared by done; cbn -[get_rows].
    by rewrite get_rows_some.
Qed.

(** X9.  The handler makes its lookups in one order (area, organization,
    analysis, report path, credential) and stops at the first that finds no
    record: the lookups of a run are the first [k] of the five, and a lookup
    without a record is the last lookup of its run. *)
Theorem X9_lookup_order (req : HttpRequest) :
  ∃ k, (k ≤ 5)%nat
       ∧ omap lookup_rank
           (trace (httpalmaanalytics py_repr requests_get BeautifulSoup req))
         = seq 1 k
       ∧ ∀ e, e ∈ trace (httpalmaanalytics py_repr requests_get BeautifulSoup req) →
              is_absent_lookup e = true →
              last (List.filter is_lookup
                      (trace (httpalmaanalytics py_repr requests_get BeautifulSoup req)))
              = Some e.
Proof.
  runs req; cbn [trace result fst snd].
  - exists 0%nat; split; [lia|]. split; [done|].
    intros e ->%list_elem_of_singleton; done.
  - exists 0%nat; split; [lia|]. split; [done|]. by intros e ?%elem_of_nil.
  - inversion Hres; subst;
      [exists 0%nat | exists 1%nat | exists 2%nat | exists 3%nat | exists 4%nat
      | exists 5%nat];
      (split; [lia|]); (split; [done|]);
      intros e He Habs; cbn;
      repeat (apply elem_of_cons in He as [-> | He]; [done || by cbn in Habs|]);
      by apply elem_of_nil in He.
  - inversion Hres; subst; exists 5%nat; split; [lia|].
    destruct Hans; cbn; (split; [done|]);
      intros ev He Habs;
      repeat (apply elem_of_cons in He as [-> | He]; [done || by cbn in Habs|]);
      by apply elem_of_nil in He.
Qed.

(** X14.  A run that ends in a response wrote at most one log record:
    exactly one when the status is 400 or 404, none when it is 200. *)
Theorem X14_log_records (req : HttpRequest) (resp : HttpResponse) :
  result (httpalmaanalytics py_repr requests_get BeautifulSoup req) = Value resp →
  (length (List.filter is_log
             (trace (httpalmaanalytics py_repr requests_get BeautifulSoup req))) ≤ 1)%nat
  ∧ (status_code resp = 400 ∨ status_code resp = 404 →
     length (List.filter is_log
               (trace (httpalmaanalytics py_repr requests_get BeautifulSoup req))) = 1%nat)
  ∧ (status_code resp = 200 →
     length (List.filter is_log
               (trace (httpalmaanalytics py_repr requests_get BeautifulSoup req))) = 0%nat).
Proof.
  runs req; cbn [trace result fst snd].
  - intros [= <-]; cbn; repeat split; try done; lia.
  - done.
  - intros [= ->]; inversion Hres; subst; cbn; repeat split; try done; lia.
  - inversion Hres; subst.
    destruct Hans; cbn; intros ?; simplify_eq; cbn;
      (repeat split; try done; try lia; by intros [? | ?]).
Qed.

End Outcomes.

(** ** The column map *)

Lemma normalized_clean (heading : string) :
  Str.contains "CASE  WHEN Provenance Code" (normalized heading) = false.
Proof.
  unfold normalized.
  destruct (Str.contains "CASE  WHEN Provenance Code" heading) eqn:Hc; [|done].
  vm_compute; reflexivity.
Qed.

(** Every entry of the map was written for a declaration. *)
Lemma fold_columns_origin (l : list node) (acc : gmap string string) (nm h : string) :
  fold_left add_column l acc !! nm = Some h →
  acc !! nm = Some h
  ∨ ∃ c heading, c ∈ l ∧ declared c = Some (nm, heading) ∧ h = normalized heading.
Proof.
  revert acc; induction l as [|c l IH]; intros acc; [by left|].
  cbn [fold_left]; intros [Hacc | (c' & hd & Hin & Hd & ->)]%IH.
  - unfold add_column in Hacc.
    destruct (declared c) as [[n hd]|] eqn:Hc; [|by left].
    apply lookup_insert_Some in Hacc as [[<- <-] | [_ Hacc]]; [|by left].
    right; exists c, hd; split; [apply list_elem_of_here | done].
  - right; exists c', hd; split; [by apply list_elem_of_further | done].
Qed.

Lemma fold_columns_is_Some (l : list node) (acc : gmap string string) (nm : string) :
  is_Some (acc !! nm) → is_Some (fold_left add_column l acc !! nm).
Proof.
  revert acc; induction l as [|c l IH]; intros acc Hacc; [done|].
  cbn [fold_left]; apply IH; unfold add_column.
  destruct (declared c) as [[n hd]|]; [|done].
  rewrite lookup_insert; case_decide; [by eexists | done].
Qed.

Lemma fold_columns_covers (l : list node) (acc : gmap string string) (c : node)
    (nm heading : string) :
  c ∈ l → declared c = Some (nm, heading) →
  is_Some (fold_left add_column l acc !! nm).
Proof.
  intros Hin Hc; revert acc.
  induction Hin as [c l | c c' l Hin IH]; intros acc; cbn [fold_left].
  - apply fold_columns_is_Some; unfold add_column; rewrite Hc.
    rewrite lookup_insert_eq; by eexists.
  - apply IH, Hc.
Qed.

Lemma declared_name (c : node) (nm heading : string) :
  declared c = Some (nm, heading) → bs4.attrs c !! "name" = Some nm.
Proof.
  unfold declared.
  destruct (bs4.attrs c !! "name") as [n|]; cbn; [|done].
  destruct (bs4.attrs c !! "saw-sql:columnHeading"); cbn; [|done].
  by intros [= -> _].
Qed.

(** X7.  The column map that [get_columns] returns has an entry exactly
    for the [name] attributes of the declarations, every header in it is the
    normalized heading of a declaration with that name, and no header in it
    contains "CASE  WHEN Provenance Code". *)
Theorem X7_column_map (soup : soup) (columns : gmap string string) :
  result (get_columns soup) = Value (inr columns) →
  (∀ nm, is_Some (columns !! nm)
         ↔ ∃ c, c ∈ bs4.find_all "xsd:element" soup ∧ bs4.attrs c !! "name" = Some nm)
  ∧ (∀ nm h, columns !! nm = Some h →
       ∃ c heading, c ∈ bs4.find_all "xsd:element" soup
                    ∧ declared c = Some (nm, heading) ∧ h = normalized heading)
  ∧ (∀ nm h, columns !! nm = Some h →
       ¬ Str.Substring "CASE  WHEN Provenance Code" h).
Proof.
  intros [Hall ->]%get_columns_value.
  assert (Horigin : ∀ nm h,
            fold_left add_column (bs4.find_all "xsd:element" soup) ∅ !! nm = Some h →
            ∃ c heading, c ∈ bs4.find_all "xsd:element" soup
                         ∧ declared c = Some (nm, heading) ∧ h = normalized heading).
  { intros nm h [Hacc | Hc]%fold_columns_origin; [by rewrite lookup_empty in Hacc | done]. }
  split; [|split].
  - intros nm; split.
    + intros [h (c & hd & Hin & Hc & _)%Horigin].
      exists c; split; [done | by eapply declared_name].
    + intros (c & Hin & Hnm).
      rewrite Forall_forall in Hall.
      destruct (Hall c Hin) as [[n hd] Hc].
      pose proof (declared_name _ _ _ Hc) as Hn.
      assert (n = nm) as -> by congruence.
      by eapply fold_columns_covers.
  - done.
  - intros nm h (c & hd & _ & _ & ->)%Horigin Hsub%StrFacts.contains_spec.
    by rewrite normalized_clean in Hsub.
Qed.

Lemma find_first_undeclared (before after : list node) (c : node) :
  Forall (λ c, is_Some (declared c)) before →
  declared c = None →
  List.find undeclared (before ++ c :: after) = Some c.
Proof.
  intros Hb Hc; induction Hb as [|b before [p Hp] Hb IH]; cbn.
  - unfold undeclared; by rewrite Hc.
  - unfold undeclared at 1; by rewrite Hp.
Qed.

(** X8.  [get_columns] stops at the first declaration, in document order,
    that lacks an attribute, with the [KeyError] of the attribute it reads
    first: [saw-sql:columnHeading] when the heading is missing (whether or
    not the name is there), [name] when only the name is missing.  It logs
    nothing. *)
Theorem X8_first_incomplete_declaration (soup : soup) (before after : list node)
    (c : node) :
  bs4.find_all "xsd:element" soup = before ++ c :: after →
  Forall (λ c, is_Some (declared c)) before →
  declared c = None →
  get_columns soup
  = ([], Raised (KeyError (match bs4.attrs c !! "saw-sql:columnHeading" with
                           | None => "saw-sql:columnHeading"
                           | Some _ => "name"
                           end))).
Proof.
  intros Hl Hb Hc.
  assert (Htag : bs4.is_tag c = true).
  { apply (find_all_is_tag "xsd:element" soup); rewrite Hl; set_solver. }
  rewrite get_columns_some by (rewrite Hl; by destruct before).
  rewrite for_each_columns_result, Hl, (find_first_undeclared _ _ _ Hb Hc).
  destruct c as [nm a cs| |]; try done; cbn.
  by destruct (a !! "saw-sql:columnHeading").
Qed.

(** ** Rows *)

(** X12.  The mapping of a [Row] depends on the column map only through
    its entries for the tags of the row's cells other than [Column0]: in
    particular the map's own entry for [Column0] is never read. *)
Theorem X12_row_reads_its_tags_only (columns columns' : gmap string string) (r : node) :
  (∀ kid, kid ∈ bs4.findChildren r → bs4.name kid ≠ "Column0" →
     columns !! bs4.name kid = columns' !! bs4.name kid) →
  get_row columns r = get_row columns' r.
Proof.
  unfold get_row; generalize (∅ : row) as values.
  induction (bs4.findChildren r) as [|kid kids IH]; intros values Hkids; [done|].
  cbn [fold_left]; rewrite IH
    by (intros k Hk; apply Hkids; by apply list_elem_of_further).
  f_equal; rewrite !get_rows_step_insert; unfold header_of.
  destruct (is_column0 kid) eqn:Hk; [done|].
  rewrite (Hkids kid (list_elem_of_here _ _)); [done | by apply is_column0_false].
Qed.

(** X13.  A [Row] is mapped to the empty mapping exactly when it has no
    cell other than [Column0]; the row still takes its place in the list. *)
Theorem X13_empty_row (columns : gmap string string) (r : node) :
  get_row columns r = ∅
  ↔ ∀ kid, kid ∈ bs4.findChildren r → bs4.name kid = "Column0".
Proof.
  unfold get_row; split.
  - intros Hrow kid Hin.
    destruct (decide (bs4.name kid = "Column0")) as [|Hk]; [done|].
    apply is_column0_false in Hk.
    destruct (fold_rows_covers columns _ ∅ kid Hin Hk) as [v Hv].
    by rewrite Hrow, lookup_empty in Hv.
  - intros Hkids; apply map_eq; intros key.
    rewrite fold_rows_keeps; [done|].
    intros kid Hin Hk%is_column0_false; by destruct Hk; apply Hkids.
Qed.

(** ** The query string *)

Lemma kept_app (safe a b : string) : kept safe (a +:+ b) = kept safe a && kept safe b.
Proof.
  induction a as [|c a IH]; [done|].
  rewrite StrFacts.app_cons; cbn [kept]; by rewrite IH, andb_assoc.
Qed.

Lemma kept_quoter (c : ascii) : kept ":%" (urllib.quoter ":%" c) = true.
Proof. UrlFacts.each_byte c; reflexivity. Qed.

Lemma kept_not_space (c : ascii) :
  urllib.always_safe c || Str.mem c ":%" = true → Ascii.eqb c " " = false.
Proof.
  destruct (Ascii.eqb c " ") eqn:Hc; [|done].
  apply Ascii.eqb_eq in Hc as ->; by vm_compute.
Qed.

(** X10.  With [safe=':%'] a value made only of letters, digits,
    [_.-~], colons and percent signs (a path that is already
    percent-encoded, for one) goes into the query string unchanged, and what
    [quote_plus] makes of a value without spaces is such a string: encoding
    it a second time changes nothing. *)
Theorem X10_encoded_value_unchanged (s : string) :
  (kept ":%" s = true → urllib.quote_plus s ":%" = s)
  ∧ (Str.mem " " s = false → kept ":%" (urllib.quote_plus s ":%") = true).
Proof.
  rewrite UrlFacts.quote_plus_bind; split.
  - induction s as [|c s IH]; [done|]; cbn [kept Str.bind].
    intros [Hc Hs]%andb_true_iff; rewrite IH by done.
    unfold urllib.plus_char, urllib.quoter; by rewrite (kept_not_space c Hc), Hc.
  - induction s as [|c s IH]; [done|]; cbn [Str.mem Str.bind].
    intros [Hc Hs]%orb_false_iff; rewrite kept_app, IH by done.
    unfold urllib.plus_char; rewrite Ascii.eqb_sym, Hc.
    by rewrite kept_quoter.
Qed.

Lemma pairs_base_then (path apikey more : string) :
  urllib.pairs (base_query path apikey +:+ String "&" more)
  = [("path", urllib.quote_plus path ":%"); ("apikey", urllib.quote_plus apikey ":%");
     ("limit", "1000"); ("col_names", "true")]
    ++ urllib.pairs more.
Proof.
  unfold urllib.pairs, base_query; rewrite !StrFacts.app_assoc.
  change ("path=" +:+ urllib.quote_plus path ":%" +:+ "&apikey=" +:+
          urllib.quote_plus apikey ":%" +:+ "&limit=1000&col_names=true" +:+
          String "&" more)
    with (("path" +:+ String "=" (urllib.quote_plus path ":%")) +:+ String "&"
            (("apikey" +:+ String "=" (urllib.quote_plus apikey ":%")) +:+ String "&"
               ("limit=1000" +:+ String "&"
                  ("col_names=true" +:+ String "&" more)))).
  assert (Hamp : ∀ k v, Str.mem "&" k = false →
            Str.mem "&" (k +:+ String "=" (urllib.quote_plus v ":%")) = false).
  { intros k v Hk. rewrite StrFacts.mem_app, Hk; cbn [Str.mem orb].
    by rewrite UrlFacts.quote_plus_no_amp. }
  rewrite !StrFacts.split_app by (by apply Hamp || done).
  cbn [map app]; by rewrite !StrFacts.partition_app.
Qed.

Section Token.

Context {store : ConfigStore}.
Variable py_repr : pyval → string.
Variable requests_get : string → string → Z → string + string.
Variable BeautifulSoup : string → string → soup.

(** X11.  The continuation token is appended as it is, without
    URL-encoding: read back, the payload has the four fixed pairs followed by
    whatever pairs the text [token=<token>] itself splits into, so an [&] in
    the token starts further keys. *)
Theorem X11_token_not_escaped (path apikey tok : string) :
  tok ≠ "" →
  build_payload py_repr path apikey (PyStr tok)
  = base_query path apikey +:+ "&token=" +:+ tok
  ∧ urllib.pairs (build_payload py_repr path apikey (PyStr tok))
    = [("path", urllib.quote_plus path ":%"); ("apikey", urllib.quote_plus apikey ":%");
       ("limit", "1000"); ("col_names", "true")]
      ++ urllib.pairs ("token=" +:+ tok).
Proof.
  intros Htok.
  assert (Hp : build_payload py_repr path apikey (PyStr tok)
               = base_query path apikey +:+ "&token=" +:+ tok).
  { unfold build_payload; rewrite UrlFacts.urlencode_base; cbn [truthy py_format].
    by destruct (String.eqb_spec tok ""). }
  split; [done|]. rewrite Hp; apply (pairs_base_then path apikey ("token=" +:+ tok)).
Qed.

Ltac lookups :=
  unfold area_by_name, iz_by_code, analysis_by_name,
    iz_analysis_by_iz_and_analysis, api_key_by_area_and_iz;
  repeat match goal with
  | |- context [get_area_by_name ?a] => destruct (get_area_by_name a) eqn:?
  | |- context [get_iz_by_code ?a] => destruct (get_iz_by_code a) eqn:?
  | |- context [get_analysis_by_name ?a] => destruct (get_analysis_by_name a) eqn:?
  | |- context [get_iz_analysis_by_iz_and_analysis ?a ?b] =>
      destruct (get_iz_analysis_by_iz_and_analysis a b) eqn:?
  | |- context [get_api_key_by_area_and_iz ?a ?b ?c] =>
      destruct (get_api_key_by_area_and_iz a b c) eqn:?
  end.

Lemma set_payload_reads_three_fields (req req' : HttpRequest)
    (d d' : gmap string pyval) :
  get_json req = Some (PyDict d) →
  get_json req' = Some (PyDict d') →
  d !! "iz" = d' !! "iz" →
  d !! "analysis" = d' !! "analysis" →
  d !! "resume" = d' !! "resume" →
  result (set_payload py_repr req) = result (set_payload py_repr req').
Proof.
  intros Hreq Hreq' Hiz Han Hres; unfold set_payload.
  rewrite Hreq, Hreq'; cbn; rewrite <- Hiz, <- Han, <- Hres.
  destruct (truthy (default PyNone (d !! "iz"))); cbn; [|done].
  destruct (truthy (default PyNone (d !! "analysis"))); cbn; [|done].
  lookups; by cbn.
Qed.

(** X15.  Of a JSON object the handler reads [iz], [analysis] and
    [resume] (and [area], for one log record): two bodies that agree on the
    first three are answered alike, whatever else they carry. *)
Theorem X15_other_fields_ignored (req req' : HttpRequest) (d d' : gmap string pyval) :
  get_json req = Some (PyDict d) →
  get_json req' = Some (PyDict d') →
  d !! "iz" = d' !! "iz" →
  d !! "analysis" = d' !! "analysis" →
  d !! "resume" = d' !! "resume" →
  result (httpalmaanalytics py_repr requests_get BeautifulSoup req)
  = result (httpalmaanalytics py_repr requests_get BeautifulSoup req').
Proof.
  intros Hreq Hreq' Hiz Han Hres.
  pose proof (set_payload_reads_three_fields req req' d d' Hreq Hreq' Hiz Han Hres) as Hsp.
  destruct (result (set_payload py_repr req)) as [[resp | payload] | e] eqn:Hr;
    symmetry in Hsp.
  - by rewrite (handler_early _ _ _ _ _ Hr), (handler_early _ _ _ _ _ Hsp).
  - by rewrite (handler_respond _ _ _ _ _ Hr), (handler_respond _ _ _ _ _ Hsp).
  - by rewrite (handler_raised _ _ _ _ _ Hr), (handler_raised _ _ _ _ _ Hsp).
Qed.

End Token.

(** ** The properties above on the sample data *)

Lemma X1_status_400_witness :
  (status_code (plain "Pass iz, and analysis in the request body" 400) = 400
   ↔ get_json (Sample.request [("iz", PyStr "scf"); ("analysis", PyStr "")]) = None
     ∨ ∃ d, get_json (Sample.request [("iz", PyStr "scf"); ("analysis", PyStr "")])
            = Some (PyDict d)
            ∧ required_fields d = false)
  ∧ (status_code (plain "Pass iz, and analysis in the request body" 400) = 400 →
     ∃ msg, trace (Sample.run Sample.report
                     (Sample.request [("iz", PyStr "scf"); ("analysis", PyStr "")]))
            = [Log msg []]).
Proof.
  apply (X1_status_400 (store := Sample.store 7) Sample.repr Sample.remote
           (Sample.parser Sample.report)).
  vm_compute; reflexivity.
Defined.

Lemma X2_remote_failure_witness :
  httpalmaanalytics (store := Sample.store 7) Sample.repr Sample2.down
    (Sample.parser Sample.report) Sample.loans
  = (trace (set_payload (store := Sample.store 7) Sample.repr Sample.loans)
       ++ [HttpGet url
             "path=%2Fshared%2FFoo+Bar:x%2F%2Floans&apikey=l8xx%26%3Dk&limit=1000&col_names=true"
             600],
     Value (plain ("API call failed: " +:+ "503 Server Error") 500))
  ∧ Str.Substring "503 Server Error" ("API call failed: " +:+ "503 Server Error").
Proof.
  apply (X2_remote_failure (store := Sample.store 7)); vm_compute; reflexivity.
Defined.

Lemma X5_statuses_witness :
  (200 = 200 ∨ 200 = 400 ∨ 200 = 404 ∨ 200 = 500)
  ∧ (200 = 200 ↔ Some "application/json" = Some "application/json")
  ∧ (200 = 200
     ↔ ∃ resume rows,
         JsonDumps (Some "abc123") [<["Title" := "Foo"]> ∅; ∅] = JsonDumps resume rows)
  ∧ (200 ≠ 200 →
     ∃ msg, {| resp_body := JsonDumps (Some "abc123") [<["Title" := "Foo"]> ∅; ∅];
               status_code := 200;
               mimetype := Some "application/json" |}
            = plain msg 200).
Proof.
  apply (X5_statuses (store := Sample.store 7) Sample.repr Sample.remote
           (Sample.parser Sample2.paged) Sample.loans
           {| resp_body := JsonDumps (Some "abc123") [<["Title" := "Foo"]> ∅; ∅];
              status_code := 200;
              mimetype := Some "application/json" |}).
  vm_compute; reflexivity.
Defined.


Lemma X7_column_map_witness :
  (∀ nm, is_Some ((<["Column2" := "Title"]> (<["Column1" := "Provenance Code"]> ∅)
                    : gmap string string) !! nm)
         ↔ ∃ c, c ∈ bs4.find_all "xsd:element" Sample.provenance
                ∧ bs4.attrs c !! "name" = Some nm)
  ∧ (∀ nm h, (<["Column2" := "Title"]> (<["Column1" := "Provenance Code"]> ∅)
               : gmap string string) !! nm = Some h →
       ∃ c heading, c ∈ bs4.find_all "xsd:element" Sample.provenance
                    ∧ declared c = Some (nm, heading) ∧ h = normalized heading)
  ∧ (∀ nm h, (<["Column2" := "Title"]> (<["Column1" := "Provenance Code"]> ∅)
               : gmap string string) !! nm = Some h →
       ¬ Str.Substring "CASE  WHEN Provenance Code" h).
Proof.
  apply (X7_column_map Sample.provenance); vm_compute; reflexivity.
Defined.

Lemma X8_first_incomplete_declaration_witness :
  get_columns Sample2.half_declared = ([], Raised (KeyError "saw-sql:columnHeading")).
Proof.
  etrans.
  - apply (X8_first_incomplete_declaration Sample2.half_declared
             [Sample.column "Column1" "Title"] [Tag "xsd:element" ∅ []]
             (Tag "xsd:element" (<["name" := "Column2"]> ∅) [])).
    + vm_compute; reflexivity.
    + repeat constructor; vm_compute; by eexists.
    + vm_compute; reflexivity.
  - vm_compute; reflexivity.
Defined.

Lemma X10_encoded_value_unchanged_witness :
  urllib.quote_plus "%2Fshared%2FFoo:bar" ":%" = "%2Fshared%2FFoo:bar"
  ∧ kept ":%" (urllib.quote_plus "/shared/Foo:bar" ":%") = true.
Proof.
  split.
  - apply (proj1 (X10_encoded_value_unchanged "%2Fshared%2FFoo:bar")).
    vm_compute; reflexivity.
  - apply (proj2 (X10_encoded_value_unchanged "/shared/Foo:bar")).
    vm_compute; reflexivity.
Defined.

Lemma X11_token_not_escaped_witness :
  build_payload Sample.repr "/r" "k" (PyStr "x&limit=1")
  = base_query "/r" "k" +:+ "&token=" +:+ "x&limit=1"
  ∧ urllib.pairs (build_payload Sample.repr "/r" "k" (PyStr "x&limit=1"))
    = [("path", urllib.quote_plus "/r" ":%"); ("apikey", urllib.quote_plus "k" ":%");
       ("limit", "1000"); ("col_names", "true")]
      ++ urllib.pairs ("token=" +:+ "x&limit=1").
Proof.
  apply (X11_token_not_escaped Sample.repr "/r" "k" "x&limit=1"); discriminate.
Defined.

Lemma X12_row_reads_its_tags_only_witness :
  get_row Sample.titles Sample.same_header
  = get_row (delete "Column0" Sample.titles) Sample.same_header.
Proof.
  apply X12_row_reads_its_tags_only.
  intros kid _ Hk; symmetry; apply lookup_delete_ne; congruence.
Defined.

Lemma X14_log_records_witness :
  (length (List.filter is_log
             (trace (httpalmaanalytics (store := Sample.store_without_area)
                       Sample.repr Sample.remote (Sample.parser Sample.report)
                       Sample.loans))) ≤ 1)%nat
  ∧ (status_code (plain "Area not found" 404) = 400
     ∨ status_code (plain "Area not found" 404) = 404 →
     length (List.filter is_log
               (trace (httpalmaanalytics (store := Sample.store_without_area)
                         Sample.repr Sample.remote (Sample.parser Sample.report)
                         Sample.loans))) = 1%nat)
  ∧ (status_code (plain "Area not found" 404) = 200 →
     length (List.filter is_log
               (trace (httpalmaanalytics (store := Sample.store_without_area)
                         Sample.repr Sample.remote (Sample.parser Sample.report)
                         Sample.loans))) = 0%nat).
Proof.
  apply (X14_log_records (store := Sample.store_without_area)).
  vm_compute; reflexivity.
Defined.

Lemma X15_other_fields_ignored_witness :
  result (Sample.run Sample.report Sample.loans)
  = result (Sample.run Sample.report Sample2.loans_and_more).
Proof.
  apply (X15_other_fields_ignored (store := Sample.store 7) Sample.repr Sample.remote
           (Sample.parser Sample.report) Sample.loans Sample2.loans_and_more
           (list_to_map [("iz", PyStr "scf"); ("analysis", PyStr "loans")])
           (list_to_map [("iz", PyStr "scf"); ("analysis", PyStr "loans");
                         ("limit", PyInt 5)]));
    vm_compute; reflexivity.
Defined.
